(** * assistant-canna-cate: the action dispatcher of [src/App.tsx]

    A shallow embedding of the part of [handleSendMessage] that decodes the
    model's reply and runs the requested WordPress action (lines 124-205 of
    [src/App.tsx]), together with the data of [src/types.ts].

    - JavaScript values produced by [JSON.parse] are the inductive [json];
      [undefined] is [None] of [option json].
    - Exceptions and the calls made to the WordPress services are threaded
      through a small state-and-exception monad [M].
    - The services of [services/wordpressService] are an interface
      ([Backend]); the file also holds a model of them written from the
      specification, used where a property depends on what they do. *)

From Stdlib Require Import String Ascii ZArith List Bool.
From stdpp Require Import gmap strings list fin_maps.

Set Warnings "-register-all".
Open Scope string_scope.

(** ** Characters that a Rocq string literal cannot spell *)

(** The double quote of the template literals. *)
Definition dq : string := String (ascii_of_nat 34) EmptyString.
(** The line feed written [\n] in the source. *)
Definition nl : string := String (ascii_of_nat 10) EmptyString.

(** ** JavaScript values *)

(** A JSON number is an IEEE double.  The dispatcher never computes with
    one: it only tests it ([if (x)]) and prints it ([`${x}`]).  A number is
    therefore kept as these two observations, whatever double it is. *)
Record number := { number_is_zero : bool; number_text : string }.

(** What [JSON.parse] can return. *)
Inductive json :=
| JNull
| JBool (b : bool)
| JNum (n : number)
| JStr (s : string)
| JArr (l : list json)
| JObj (o : gmap string json).

(** ToBoolean: [null], [false], [0] and the empty string are falsy; arrays
    and objects are truthy, also when empty. *)
Definition truthy (v : json) : bool :=
  match v with
  | JNull => false
  | JBool b => b
  | JNum n => negb (number_is_zero n)
  | JStr s => negb (s =? EmptyString)
  | JArr _ => true
  | JObj _ => true
  end.

(** ToBoolean of a value that may be [undefined]. *)
Definition truthy_opt (v : option json) : bool :=
  match v with
  | Some x => truthy x
  | None => false
  end.

(** [a || b]. *)
Definition js_or (a b : option json) : option json :=
  if truthy_opt a then a else b.

(** [Array.prototype.join] over elements already converted ([None] is a
    conversion that raised). *)
Fixpoint join_opt (sep : string) (l : list (option string)) : option string :=
  match l with
  | [] => Some EmptyString
  | [x] => x
  | x :: rest =>
      match x, join_opt sep rest with
      | Some s, Some r => Some (s +:+ sep +:+ r)
      | _, _ => None
      end
  end.

(** ToString, as a template literal applies it.  [None] stands for the
    TypeError raised for an object whose own [toString] property shadows
    [Object.prototype.toString] (a JSON value is never callable, and
    [valueOf] then returns the object itself).  An array is joined with
    commas, [null] elements printing as the empty string. *)
Fixpoint ToString (v : json) : option string :=
  match v with
  | JNull => Some "null"
  | JBool true => Some "true"
  | JBool false => Some "false"
  | JNum n => Some (number_text n)
  | JStr s => Some s
  | JArr l =>
      join_opt ","
        (map (fun e => match e with
                       | JNull => Some EmptyString
                       | _ => ToString e
                       end) l)
  | JObj o =>
      match o !! "toString" with
      | Some _ => None
      | None => Some "[object Object]"
      end
  end.

(** ToString of a value that may be [undefined]. *)
Definition ToString_opt (v : option json) : option string :=
  match v with
  | Some x => ToString x
  | None => Some "undefined"
  end.

(** ** Exceptions *)

Inductive exn :=
| SyntaxError                   (* raised by JSON.parse *)
| TypeError                     (* property read on null or undefined *)
| ServiceError (reason : string). (* a rejected service promise *)

Inductive outcome (A : Type) :=
| Returned (a : A)
| Thrown (e : exn).
Arguments Returned {A} a.
Arguments Thrown {A} e.

(** [v.k] for the property names this file reads ([action], [payload],
    [categoryName], [description], [name], [slug], [metaTitle],
    [metaDescription], [focusKeyphrase]): none of them is defined on a
    built-in prototype, so only an object's own properties answer; reading
    from [null] or [undefined] raises. *)
Definition get_prop (v : option json) (k : string) : outcome (option json) :=
  match v with
  | None => Thrown TypeError
  | Some JNull => Thrown TypeError
  | Some (JObj o) => Returned (o !! k)
  | Some _ => Returned None
  end.

(** ** [src/types.ts] *)

Record Credentials := {
  wpUrl : string;
  username : string;
  appPassword : string
}.

Module YoastHeadJson.
Record t := {
  title : option string;
  description : option string
}.
End YoastHeadJson.

Module WPCategory.
Record t := {
  id : Z;
  name : string;
  slug : string;
  description : string;
  yoast_head_json : option YoastHeadJson.t;
  _yoast_wpseo_title : option string;
  _yoast_wpseo_metadesc : option string;
  _yoast_wpseo_focuskw : option string
}.
End WPCategory.

(** What [getCategoryByName] resolves to, as line 139 destructures it. *)
Record Resolution := {
  exactMatch : option WPCategory.t;
  suggestions : list WPCategory.t
}.

(** The object built at line 169 ([Partial<WPCategory>]), keyed by property
    name. *)
Abbreviation UpdatePayload := (gmap string json).

(** ** The services of [services/wordpressService]

    Their code is not part of the sources at hand; the dispatcher is
    written against their signatures as imported on line 5.  Each is an
    asynchronous function over the state [W] of the WordPress site, and
    may reject.  [getCategoryByName] receives whatever value the payload
    holds under [categoryName]. *)
Class Backend (W : Type) := {
  getCategories : Credentials -> W -> outcome (list WPCategory.t) * W;
  getCategoryByName : Credentials -> json -> W -> outcome Resolution * W;
  updateCategoryMetadata :
    Credentials -> Z -> UpdatePayload -> W -> outcome unit * W
}.

(** One entry per service call awaited, oldest first. *)
Inductive call :=
| CallGetCategories
| CallGetCategoryByName (categoryName : json)
| CallUpdateCategoryMetadata (id : Z) (updatePayload : UpdatePayload).

Definition is_update (c : call) : bool :=
  match c with
  | CallUpdateCategoryMetadata _ _ => true
  | _ => false
  end.

(** Number of [updateCategoryMetadata] calls in a log. *)
Definition update_calls (log : list call) : nat :=
  length (List.filter is_update log).

(** ** The monad of the dispatcher: site state, call log, exceptions *)

Definition M (W A : Type) : Type := W * list call -> outcome A * (W * list call).

Definition ret {W A} (a : A) : M W A := fun s => (Returned a, s).

Definition throw {W A} (e : exn) : M W A := fun s => (Thrown e, s).

Definition bind {W A B} (m : M W A) (k : A -> M W B) : M W B :=
  fun s =>
    match m s with
    | (Returned a, s') => k a s'
    | (Thrown e, s') => (Thrown e, s')
    end.

(** [try { m } catch (e) { h e }]: what [m] did to the site before raising
    stays done. *)
Definition try_catch {W A} (m : M W A) (h : exn -> M W A) : M W A :=
  fun s =>
    match m s with
    | (Returned a, s') => (Returned a, s')
    | (Thrown e, s') => h e s'
    end.

(** A pure computation that may raise. *)
Definition lift {W A} (o : outcome A) : M W A := fun s => (o, s).

Notation "'let!' x ':=' m 'in' k" := (bind m (fun x => k))
  (at level 10, x name, m at level 100, k at level 200).

(** [`${v}`]. *)
Definition tpl {W} (v : option json) : M W string :=
  match ToString_opt v with
  | Some s => ret s
  | None => throw TypeError
  end.

(** [s || d] on a string that may be [undefined]. *)
Definition or_default (s : option string) (d : string) : string :=
  match s with
  | Some x => if x =? EmptyString then d else x
  | None => d
  end.

(** [suggestions.map(s => `"${s.name}"`).join('\n - ')], lines 150 and 191. *)
Definition suggestionList (suggestions : list WPCategory.t) : string :=
  String.concat (nl +:+ " - ")
    (map (fun s => dq +:+ WPCategory.name s +:+ dq) suggestions).

(** [category.yoast_head_json?.title]. *)
Definition seo_title (category : WPCategory.t) : option string :=
  WPCategory.yoast_head_json category ≫= YoastHeadJson.title.

(** [category.yoast_head_json?.description]. *)
Definition seo_description (category : WPCategory.t) : option string :=
  WPCategory.yoast_head_json category ≫= YoastHeadJson.description.

(** The template of line 148 around its six holes. *)
Definition metadataText (name description slug yoastTitle yoastDesc yoastFocusKw : string)
    : string :=
  "Voici les métadonnées pour " +:+ dq +:+ name +:+ dq +:+ ":" +:+ nl +:+ nl
  +:+ "- Description: " +:+ description +:+ nl
  +:+ "- Slug: " +:+ slug +:+ nl
  +:+ "- Titre SEO (Yoast): " +:+ yoastTitle +:+ nl
  +:+ "- Méta Description (Yoast): " +:+ yoastDesc +:+ nl
  +:+ "- Expression-clé principale (Yoast): " +:+ yoastFocusKw.

(** Lines 143-148. *)
Definition metadataResponse (category : WPCategory.t) : string :=
  let yoastTitle := or_default (seo_title category) "Non défini" in
  let yoastDesc := or_default (seo_description category) "Non définie" in
  let yoastFocusKw :=
    or_default (WPCategory._yoast_wpseo_focuskw category) "Non définie" in
  let slug := or_default (Some (WPCategory.slug category)) "Non défini" in
  metadataText (WPCategory.name category)
    (or_default (Some (WPCategory.description category)) "Non définie")
    slug yoastTitle yoastDesc yoastFocusKw.

(** How a metadata field shows in the text of line 148: its own value when
    it has a non-empty one, the placeholder when it is absent or empty. *)
Definition rendered (field : option string) (placeholder shown : string) : Prop :=
  (exists x : string, field = Some x /\ x <> EmptyString /\ shown = x) \/
  ((field = None \/ field = Some EmptyString) /\ shown = placeholder).

(** [if (v !== undefined) updatePayload[k] = v;], line 170. *)
Definition assign_if_defined (k : string) (v : option json)
    (updatePayload : UpdatePayload) : UpdatePayload :=
  match v with
  | Some x => <[k := x]> updatePayload
  | None => updatePayload
  end.

(** [if (v) updatePayload[k] = v;], lines 171-176. *)
Definition assign_if_truthy (k : string) (v : option json)
    (updatePayload : UpdatePayload) : UpdatePayload :=
  match v with
  | Some x => if truthy x then <[k := x]> updatePayload else updatePayload
  | None => updatePayload
  end.

(** Lines 169-176: the patch sent to WordPress. *)
Definition buildUpdatePayload
    (description name slug metaTitle metaDescription focusKeyphrase : option json)
    : UpdatePayload :=
  let updatePayload : UpdatePayload := ∅ in
  let updatePayload := assign_if_defined "description" description updatePayload in
  let updatePayload := assign_if_truthy "name" name updatePayload in
  let updatePayload := assign_if_truthy "slug" slug updatePayload in
  let updatePayload := assign_if_truthy "_yoast_wpseo_title" metaTitle updatePayload in
  let updatePayload :=
    assign_if_truthy "_yoast_wpseo_metadesc" metaDescription updatePayload in
  assign_if_truthy "_yoast_wpseo_focuskw" focusKeyphrase updatePayload.

(** The fixed replies. *)
Definition msg_specify_name : string :=
  "Veuillez spécifier un nom de catégorie.".
Definition msg_specify_name_update : string :=
  "Veuillez spécifier un nom de catégorie à mettre à jour.".
Definition msg_nothing_to_change : string :=
  "Aucune modification à appliquer. Veuillez spécifier un champ à modifier.".
Definition list_header : string :=
  "Voici les catégories de produits trouvées : " +:+ nl +:+ nl +:+ " - ".

(** Line 185. *)
Definition msg_update_success (shown : string) : string :=
  "La catégorie " +:+ dq +:+ shown +:+ dq +:+ " a été mise à jour avec succès.".
(** Line 188. *)
Definition msg_update_failure (categoryName : string) : string :=
  "Une erreur est survenue lors de la mise à jour de la catégorie "
  +:+ dq +:+ categoryName +:+ dq +:+ ".".

(** A value that an [if (v)] guard lets through. *)
Definition when_truthy (v : option json) : option json :=
  if truthy_opt v then v else None.

(** The patch that lines 158 and 169-176 build from the payload's
    properties. *)
Definition patch_of (fields : gmap string json) : UpdatePayload :=
  buildUpdatePayload (fields !! "description") (fields !! "name")
    (fields !! "slug") (fields !! "metaTitle") (fields !! "metaDescription")
    (fields !! "focusKeyphrase").

(** What lines 183-189 leave in [actionResponse], given the answer of the
    update service. *)
Definition after_update (fields : gmap string json) (categoryName : json)
    (answer : outcome unit) : outcome (option string) :=
  let failure :=
    match ToString categoryName with
    | Some shown => Returned (Some (msg_update_failure shown))
    | None => Thrown TypeError
    end in
  match answer with
  | Returned _ =>
      match ToString_opt (js_or (fields !! "name") (Some categoryName)) with
      | Some shown => Returned (Some (msg_update_success shown))
      | None => failure
      end
  | Thrown _ => failure
  end.

(** ** The dispatcher, lines 124-205 of [src/App.tsx] *)

Section Dispatcher.
Context {W : Type} {backend : Backend W}.

(** [JSON.parse]: [None] when it raises SyntaxError. *)
Variable JSON_parse : string -> option json.

(** [await getCategories(wpCredentials)]. *)
Definition await_getCategories (wpCredentials : Credentials)
    : M W (list WPCategory.t) :=
  fun '(w, log) =>
    let '(r, w') := getCategories wpCredentials w in
    (r, (w', (log ++ [CallGetCategories])%list)).

(** [await getCategoryByName(wpCredentials, categoryName)]. *)
Definition await_getCategoryByName (wpCredentials : Credentials)
    (categoryName : json) : M W Resolution :=
  fun '(w, log) =>
    let '(r, w') := getCategoryByName wpCredentials categoryName w in
    (r, (w', (log ++ [CallGetCategoryByName categoryName])%list)).

(** [await updateCategoryMetadata(wpCredentials, id, updatePayload)]. *)
Definition await_updateCategoryMetadata (wpCredentials : Credentials)
    (id : Z) (updatePayload : UpdatePayload) : M W unit :=
  fun '(w, log) =>
    let '(r, w') := updateCategoryMetadata wpCredentials id updatePayload w in
    (r, (w', (log ++ [CallUpdateCategoryMetadata id updatePayload])%list)).

(** [case 'LIST_CATEGORIES'], lines 129-132. *)
Definition case_LIST_CATEGORIES (wpCredentials : Credentials)
    : M W (option string) :=
  let! categories := await_getCategories wpCredentials in
  ret (Some (list_header
             +:+ String.concat (nl +:+ " - ")
                   (map WPCategory.name categories))).

(** [case 'GET_CATEGORY_METADATA'], lines 133-156. *)
Definition case_GET_CATEGORY_METADATA (wpCredentials : Credentials)
    (parsedResponse : json) : M W (option string) :=
  let! payload := lift (get_prop (Some parsedResponse) "payload") in
  let! categoryNameToFind := lift (get_prop payload "categoryName") in
  match categoryNameToFind with
  | None => ret (Some msg_specify_name)
  | Some wanted =>
      if negb (truthy wanted) then ret (Some msg_specify_name)
      else
        let! found := await_getCategoryByName wpCredentials wanted in
        match exactMatch found with
        | Some category => ret (Some (metadataResponse category))
        | None =>
            if (0 <? length (suggestions found))%nat then
              let! shown := tpl (Some wanted) in
              ret (Some ("Je n'ai pas trouvé de correspondance exacte pour "
                         +:+ dq +:+ shown +:+ dq +:+ "." +:+ nl +:+ nl
                         +:+ "Vouliez-vous dire l'une de ces catégories ?"
                         +:+ nl +:+ " - "
                         +:+ suggestionList (suggestions found)))
            else
              let! shown := tpl (Some wanted) in
              ret (Some ("Désolé, je n'ai pas trouvé de catégorie nommée "
                         +:+ dq +:+ shown +:+ dq
                         +:+ " ou s'en approchant."))
        end
  end.

(** [case 'UPDATE_CATEGORY_METADATA'], lines 157-197. *)
Definition case_UPDATE_CATEGORY_METADATA (wpCredentials : Credentials)
    (parsedResponse : json) : M W (option string) :=
  let! payload := lift (get_prop (Some parsedResponse) "payload") in
  let! categoryName := lift (get_prop payload "categoryName") in
  let! metaDescription := lift (get_prop payload "metaDescription") in
  let! metaTitle := lift (get_prop payload "metaTitle") in
  let! description := lift (get_prop payload "description") in
  let! name := lift (get_prop payload "name") in
  let! slug := lift (get_prop payload "slug") in
  let! focusKeyphrase := lift (get_prop payload "focusKeyphrase") in
  match categoryName with
  | None => ret (Some msg_specify_name_update)
  | Some wanted =>
      if negb (truthy wanted) then ret (Some msg_specify_name_update)
      else
        let! found := await_getCategoryByName wpCredentials wanted in
        match exactMatch found with
        | Some categoryToUpdate =>
            let updatePayload :=
              buildUpdatePayload description name slug
                metaTitle metaDescription focusKeyphrase in
            if (size updatePayload =? 0)%nat then
              ret (Some msg_nothing_to_change)
            else
              try_catch
                (let! _ := await_updateCategoryMetadata wpCredentials
                             (WPCategory.id categoryToUpdate) updatePayload in
                 let! shown := tpl (js_or name categoryName) in
                 ret (Some (msg_update_success shown)))
                (fun e =>
                   (* console.error("Failed to update category:", e) *)
                   let! shown := tpl categoryName in
                   ret (Some (msg_update_failure shown)))
        | None =>
            if (0 <? length (suggestions found))%nat then
              let! shown := tpl categoryName in
              ret (Some ("Je n'ai pas trouvé de correspondance exacte pour "
                         +:+ dq +:+ shown +:+ dq +:+ " à mettre à jour."
                         +:+ nl +:+ nl
                         +:+ "Vouliez-vous dire l'une de ces catégories ?"
                         +:+ nl +:+ " - "
                         +:+ suggestionList (suggestions found)))
            else
              let! shown := tpl categoryName in
              ret (Some ("Désolé, je n'ai pas trouvé de catégorie nommée "
                         +:+ dq +:+ shown +:+ dq +:+ " à mettre à jour."))
        end
  end.

(** [case 'COPY_YOAST_META_DESC_TO_DESC'], lines 198-205: both paths
    leave the [switch] without assigning [actionResponse]. *)
Definition case_COPY_YOAST_META_DESC_TO_DESC (wpCredentials : Credentials)
    (parsedResponse : json) : M W (option string) :=
  let! payload := lift (get_prop (Some parsedResponse) "payload") in
  let! categoryNameToCopyFrom := lift (get_prop payload "categoryName") in
  if negb (truthy_opt categoryNameToCopyFrom) then ret None
  else ret None.

(** The body of the [try] opened on line 125, as far as the sources go:
    the value left in [actionResponse] ([None] for [null]).
    [wpCredentials] is the value tested non-null on line 101, so the
    [&& wpCredentials] of line 127 holds.  The [switch] compares with
    [===]: only a string can select a case. *)
Definition runAction (wpCredentials : Credentials) (aiResponseText : string)
    : M W (option string) :=
  let! parsedResponse :=
    lift (match JSON_parse aiResponseText with
          | Some v => Returned v
          | None => Thrown SyntaxError
          end) in
  let! action := lift (get_prop (Some parsedResponse) "action") in
  if truthy_opt action then
    match action with
    | Some (JStr tag) =>
        if tag =? "LIST_CATEGORIES" then
          case_LIST_CATEGORIES wpCredentials
        else if tag =? "GET_CATEGORY_METADATA" then
          case_GET_CATEGORY_METADATA wpCredentials parsedResponse
        else if tag =? "UPDATE_CATEGORY_METADATA" then
          case_UPDATE_CATEGORY_METADATA wpCredentials parsedResponse
        else if tag =? "COPY_YOAST_META_DESC_TO_DESC" then
          case_COPY_YOAST_META_DESC_TO_DESC wpCredentials parsedResponse
        else ret None
    | _ => ret None
    end
  else ret None.

(** The model's reply decodes to an object whose [action] is the given
    name. *)
Definition announces (aiResponseText tag : string) (top : gmap string json)
    : Prop :=
  JSON_parse aiResponseText = Some (JObj top) /\
  top !! "action" = Some (JStr tag).

(** The model's reply decodes to an object with the given action name and
    an object payload. *)
Definition decodes_to (aiResponseText tag : string) (fields : gmap string json)
    : Prop :=
  exists top : gmap string json,
    announces aiResponseText tag top /\
    top !! "payload" = Some (JObj fields).

(** The name asked for resolves to an exact match in site state [w],
    leaving the site in state [w1]. *)
Definition resolves_exactly (wpCredentials : Credentials) (categoryName : json)
    (w : W) (category : WPCategory.t) (w1 : W) : Prop :=
  exists found : Resolution,
    getCategoryByName wpCredentials categoryName w = (Returned found, w1) /\
    exactMatch found = Some category.

End Dispatcher.

(** ** The end of [handleSendMessage] *)

(** What the user is shown for one reply of the model. *)
Inductive reply :=
| Shown (text : string)
| Apology.

(** The four action names of the [switch]. *)
Definition known_action (tag : string) : bool :=
  (tag =? "LIST_CATEGORIES") || (tag =? "GET_CATEGORY_METADATA")
  || (tag =? "UPDATE_CATEGORY_METADATA")
  || (tag =? "COPY_YOAST_META_DESC_TO_DESC").

(** A decoded reply carries a recognised action when its [action]
    property is one of the four names. *)
Definition recognised (parsedResponse : json) : bool :=
  match get_prop (Some parsedResponse) "action" with
  | Returned (Some (JStr tag)) => known_action tag
  | _ => false
  end.

Section Conversation.
Context {W : Type} {backend : Backend W}.
Variable JSON_parse : string -> option json.

(** Modelled from the spec: the end of [handleSendMessage], which the
    sources at hand stop short of (the [catch] of the [try] opened on
    line 125 and the construction of the assistant's message).  Sections
    4.3, 4.4 and 7: an action's response is shown; with no action
    (the no-op) the raw text is shown verbatim; a payload that cannot be
    decoded or read (ParseError) is never an error and degrades to the
    raw text; a failing Directory Client read is answered by a generic
    apology. *)
Definition respond (wpCredentials : Credentials) (aiResponseText : string)
    (s : W * list call) : reply * (W * list call) :=
  match runAction JSON_parse wpCredentials aiResponseText s with
  | (Returned (Some actionResponse), s') => (Shown actionResponse, s')
  | (Returned None, s') => (Shown aiResponseText, s')
  | (Thrown SyntaxError, s') => (Shown aiResponseText, s')
  | (Thrown TypeError, s') => (Shown aiResponseText, s')
  | (Thrown (ServiceError _), s') => (Apology, s')
  end.

End Conversation.

(** ** The Name Resolver *)

(** Spec section 3: the two outcomes of a resolution. *)
Inductive ResolutionResult :=
| ExactMatch (category : WPCategory.t)
| Suggestions (candidates : list WPCategory.t).

(** The object of the two outcomes as the call sites of lines 139 and 165
    destructure it. *)
Definition to_Resolution (r : ResolutionResult) : Resolution :=
  match r with
  | ExactMatch c => {| exactMatch := Some c; suggestions := [] |}
  | Suggestions l => {| exactMatch := None; suggestions := l |}
  end.

Section Resolver.
(** The normal form under which names are compared: two names are equal
    up to case when their normal forms are equal.  Spec section 4.2 asks
    for a case-insensitive comparison and does not say which letters are
    folded, so the normal form is a parameter: every fact below holds for
    the folding of all of Unicode as for any other. *)
Variable normalize : string -> string.
(** Spec section 4.2 leaves the similarity measure, its threshold and the
    number of suggestions open: they are parameters here. *)
Variable score : string -> string -> nat.
Variable threshold : nat.
Variable limit : nat.

Definition same_name (queryName : string) (c : WPCategory.t) : bool :=
  normalize (WPCategory.name c) =? normalize queryName.

Definition relevance (queryName : string) (c : WPCategory.t) : nat :=
  score (normalize queryName) (normalize (WPCategory.name c)).

(** Insertion before the first candidate that is not more similar; the
    candidates are inserted from the last of the catalog to the first, so
    equally similar ones stay in catalog order. *)
Fixpoint insert_ranked (queryName : string) (c : WPCategory.t)
    (ranked : list WPCategory.t) : list WPCategory.t :=
  match ranked with
  | [] => [c]
  | d :: rest =>
      if (relevance queryName d <=? relevance queryName c)%nat
      then c :: d :: rest
      else d :: insert_ranked queryName c rest
  end.

Definition ranked_candidates (categories : list WPCategory.t)
    (queryName : string) : list WPCategory.t :=
  foldr (insert_ranked queryName) []
    (List.filter (fun c => (threshold <=? relevance queryName c)%nat)
       categories).

(** Modelled from the spec: the algorithm of [getCategoryByName]
    ([services/wordpressService], not among the sources), section 4.2.
    Step 1: the first candidate, in catalog order, whose normalised name
    equals the normalised query is the exact match.  Step 2: otherwise
    the candidates that clear the threshold, by descending similarity,
    at most [limit] of them. *)
Definition resolve (categories : list WPCategory.t) (queryName : string)
    : ResolutionResult :=
  match List.find (same_name queryName) categories with
  | Some c => ExactMatch c
  | None => Suggestions (take limit (ranked_candidates categories queryName))
  end.
End Resolver.

(** ** The Category Directory Client *)

(** The state of the WordPress site as the client sees it. *)
Record Site := {
  catalog : list WPCategory.t;
  reachable : bool;   (* the backend answers and accepts the credentials *)
  writable : bool     (* the credentials may edit categories *)
}.

Definition as_string (v : json) : option string :=
  match v with
  | JStr s => Some s
  | _ => None
  end.

(** The new value of a field under a sparse patch: the patch's when the
    key is present, the old one otherwise. *)
Definition patched (p : UpdatePayload) (k : string) (old : string) : string :=
  match p !! k ≫= as_string with
  | Some s => s
  | None => old
  end.

Definition patched_opt (p : UpdatePayload) (k : string) (old : option string)
    : option string :=
  match p !! k ≫= as_string with
  | Some s => Some s
  | None => old
  end.

Definition applyPatch (p : UpdatePayload) (c : WPCategory.t) : WPCategory.t :=
  {| WPCategory.id := WPCategory.id c;
     WPCategory.name := patched p "name" (WPCategory.name c);
     WPCategory.slug := patched p "slug" (WPCategory.slug c);
     WPCategory.description := patched p "description" (WPCategory.description c);
     WPCategory.yoast_head_json := WPCategory.yoast_head_json c;
     WPCategory._yoast_wpseo_title :=
       patched_opt p "_yoast_wpseo_title" (WPCategory._yoast_wpseo_title c);
     WPCategory._yoast_wpseo_metadesc :=
       patched_opt p "_yoast_wpseo_metadesc" (WPCategory._yoast_wpseo_metadesc c);
     WPCategory._yoast_wpseo_focuskw :=
       patched_opt p "_yoast_wpseo_focuskw" (WPCategory._yoast_wpseo_focuskw c) |}.

(** Every value of the patch is a string. *)
Definition all_strings (p : UpdatePayload) : bool :=
  forallb (fun kv => match as_string kv.2 with Some _ => true | None => false end)
    (map_to_list p).

Definition has_id (i : Z) (c : WPCategory.t) : bool := (WPCategory.id c =? i)%Z.

(** The catalog after a sparse patch of the categories with id [i]. *)
Definition patch_catalog (i : Z) (p : UpdatePayload) (l : list WPCategory.t)
    : list WPCategory.t :=
  map (fun c => if has_id i c then applyPatch p c else c) l.

Section Directory.
Variable normalize : string -> string.
Variable score : string -> string -> nat.
Variable threshold : nat.
Variable limit : nat.

(** Modelled from the spec: [listAll] of section 4.1 ([getCategories] of
    [services/wordpressService], not among the sources): every category,
    or ConnectionError when the backend is unreachable or rejects the
    credentials. *)
Definition listAll (site : Site) : outcome (list WPCategory.t) * Site :=
  if reachable site then (Returned (catalog site), site)
  else (Thrown (ServiceError "ConnectionError"), site).

(** Modelled from the spec: [getCategoryByName] as a fresh [listAll]
    (section 5: the catalog is refetched per action) followed by
    [resolve].  The spec resolves a string; a [categoryName] of another
    JSON type is taken to reject. *)
Definition lookupByName (categoryName : json) (site : Site)
    : outcome Resolution * Site :=
  match listAll site with
  | (Returned categories, site') =>
      match categoryName with
      | JStr queryName =>
          (Returned (to_Resolution
                       (resolve normalize score threshold limit categories
                          queryName)),
           site')
      | _ => (Thrown TypeError, site')
      end
  | (Thrown e, site') => (Thrown e, site')
  end.

(** Modelled from the spec: [update] of section 4.1
    ([updateCategoryMetadata] of [services/wordpressService], not among
    the sources).  Only the fields present in the patch change, the
    others are left untouched; no category is created.  UpdateError
    stands for a rejection by the backend: it is unreachable, the
    credentials may not edit, or no category has the id.  The fields of a
    category are strings ([src/types.ts]) and the spec coerces nothing, so
    a patch holding a value of another JSON type is taken to be rejected
    as well. *)
Definition update (i : Z) (partialFields : UpdatePayload) (site : Site)
    : outcome unit * Site :=
  if reachable site && writable site
     && existsb (has_id i) (catalog site)
     && all_strings partialFields
  then
    (Returned tt,
     {| catalog := patch_catalog i partialFields (catalog site);
        reachable := reachable site;
        writable := writable site |})
  else (Thrown (ServiceError "UpdateError"), site).

#[local] Instance DirectoryClient : Backend Site := {|
  getCategories := fun _ => listAll;
  getCategoryByName := fun _ => lookupByName;
  updateCategoryMetadata := fun _ => update
|}.
End Directory.

(** The payload does not rename the category away from the name it is
    addressed by: it has no truthy [name], or its [name] is a string equal
    to [categoryName] up to case. *)
Definition keeps_name (normalize : string -> string)
    (fields : gmap string json) : Prop :=
  when_truthy (fields !! "name") = None \/
  exists n q : string,
    fields !! "name" = Some (JStr n) /\
    fields !! "categoryName" = Some (JStr q) /\
    normalize n = normalize q.

(** No category with another id bears, up to case, the name the payload
    asks for. *)
Definition name_is_unique (normalize : string -> string)
    (fields : gmap string json) (site : Site) : Prop :=
  forall (q : string) (c d : WPCategory.t),
    fields !! "categoryName" = Some (JStr q) ->
    In c (catalog site) -> In d (catalog site) ->
    normalize (WPCategory.name c) = normalize q ->
    normalize (WPCategory.name d) = normalize q ->
    WPCategory.id c = WPCategory.id d.

(** Some category of the site bears, up to case, the name the payload asks
    for. *)
Definition still_named (normalize : string -> string)
    (fields : gmap string json) (site : Site) : Prop :=
  exists (q : string) (d : WPCategory.t),
    fields !! "categoryName" = Some (JStr q) /\
    In d (catalog site) /\
    normalize (WPCategory.name d) = normalize q.

(** ** Examples: a shop and some replies of the model *)

Definition quoted (s : string) : string := dq +:+ s +:+ dq.

(** The JSON text of a reply carrying an action and, possibly, a payload of
    string fields. *)
Definition action_text (tag : string) (payload : option (list (string * string)))
    : string :=
  "{" +:+ quoted "action" +:+ ":" +:+ quoted tag
  +:+ match payload with
      | Some fields =>
          "," +:+ quoted "payload" +:+ ":{"
          +:+ String.concat ","
                (map (fun kv => quoted kv.1 +:+ ":" +:+ quoted kv.2) fields)
          +:+ "}"
      | None => EmptyString
      end
  +:+ "}".

(** The properties of a payload of string fields. *)
Definition payload_fields (fields : list (string * string)) : gmap string json :=
  list_to_map (map (fun kv => (kv.1, JStr kv.2)) fields).

(** The properties of the object that text decodes to. *)
Definition action_object (tag : string) (payload : option (list (string * string)))
    : gmap string json :=
  let top : gmap string json := <["action" := JStr tag]> ∅ in
  match payload with
  | Some fields => <["payload" := JObj (payload_fields fields)]> top
  | None => top
  end.

(** The value that text decodes to. *)
Definition action_value (tag : string) (payload : option (list (string * string)))
    : json :=
  JObj (action_object tag payload).

Definition ask_shoes : list (string * string) := [("categoryName", "Shoes")].
Definition ask_sandals : list (string * string) := [("categoryName", "Sandals")].
Definition retitle_shoes : list (string * string) :=
  [("categoryName", "Shoes"); ("metaTitle", "New Title")].
Definition blank_shoes : list (string * string) :=
  [("categoryName", "Shoes"); ("description", EmptyString)].
Definition rename_shoes : list (string * string) :=
  [("categoryName", "Shoes"); ("name", "Boots")].

Definition example_replies : list (string * option (list (string * string))) :=
  [ ("LIST_CATEGORIES", None);
    ("GET_CATEGORY_METADATA", Some ask_shoes);
    ("GET_CATEGORY_METADATA", Some ask_sandals);
    ("UPDATE_CATEGORY_METADATA", Some ask_shoes);
    ("UPDATE_CATEGORY_METADATA", Some retitle_shoes);
    ("UPDATE_CATEGORY_METADATA", Some blank_shoes);
    ("UPDATE_CATEGORY_METADATA", Some rename_shoes);
    ("COPY_YOAST_META_DESC_TO_DESC", Some ask_shoes);
    ("DELETE_CATEGORY", Some ask_shoes) ].

(** A decoder that knows the example replies and rejects every other
    text, standing for [JSON.parse] in the examples. *)
Definition example_parse (text : string) : option json :=
  match List.find (fun r => action_text r.1 r.2 =? text) example_replies with
  | Some r => Some (action_value r.1 r.2)
  | None => None
  end.

(** An example of a normal form, for UTF-8 texts: it folds the ASCII
    capitals and the accented capitals of Latin-1 (the two bytes 195,
    128..158 but for the multiplication sign 151). *)
Definition lower_ascii (c : ascii) : ascii :=
  let n := nat_of_ascii c in
  if ((65 <=? n) && (n <=? 90))%nat then ascii_of_nat (n + 32) else c.

Definition lower_latin1 (c : ascii) : ascii :=
  let n := nat_of_ascii c in
  if ((128 <=? n) && (n <=? 158) && negb (n =? 151))%nat
  then ascii_of_nat (n + 32) else c.

Fixpoint fold_case (s : string) : string :=
  match s with
  | EmptyString => EmptyString
  | String c rest =>
      if Ascii.eqb c (ascii_of_nat 195) then
        match rest with
        | String d rest' => String c (String (lower_latin1 d) (fold_case rest'))
        | EmptyString => String c EmptyString
        end
      else String (lower_ascii c) (fold_case rest)
  end.

Definition contains (needle hay : string) : bool :=
  match String.index 0 needle hay with
  | Some _ => true
  | None => false
  end.

(** Substring containment, either way, as a similarity. *)
Definition containment (queryName name : string) : nat :=
  if contains queryName name || contains name queryName then 1 else 0.

Definition plain_category (i : Z) (name slug : string) : WPCategory.t :=
  {| WPCategory.id := i;
     WPCategory.name := name;
     WPCategory.slug := slug;
     WPCategory.description := EmptyString;
     WPCategory.yoast_head_json := None;
     WPCategory._yoast_wpseo_title := None;
     WPCategory._yoast_wpseo_metadesc := None;
     WPCategory._yoast_wpseo_focuskw := None |}.

Definition shoes : WPCategory.t := plain_category 1 "Shoes" "shoes".
Definition shirts : WPCategory.t := plain_category 2 "Shirts" "shirts".

(** A category whose SEO fields are present and empty. *)
Definition sandals : WPCategory.t :=
  {| WPCategory.id := 3;
     WPCategory.name := "Sandals";
     WPCategory.slug := EmptyString;
     WPCategory.description := EmptyString;
     WPCategory.yoast_head_json :=
       Some {| YoastHeadJson.title := Some EmptyString;
               YoastHeadJson.description := Some EmptyString |};
     WPCategory._yoast_wpseo_title := None;
     WPCategory._yoast_wpseo_metadesc := None;
     WPCategory._yoast_wpseo_focuskw := Some EmptyString |}.

Definition shop : Site :=
  {| catalog := [shoes; shirts; sandals]; reachable := true; writable := true |}.
Definition read_only_shop : Site :=
  {| catalog := [shoes; shirts; sandals]; reachable := true; writable := false |}.
Definition empty_shop : Site :=
  {| catalog := []; reachable := true; writable := true |}.

(** A category with an accented name, and a shop where two categories
    bear the same name. *)
Definition ete : WPCategory.t := plain_category 4 "Été" "ete".
Definition twin_shop : Site :=
  {| catalog := [shoes; plain_category 5 "Shoes" "shoes-2"];
     reachable := true; writable := true |}.

Definition example_client : Backend Site :=
  DirectoryClient fold_case containment 1 5.

Definition example_credentials : Credentials :=
  {| wpUrl := "https://shop.example"; username := "admin";
     appPassword := "app password" |}.

(** ** The calls one run of the dispatcher may add to the log *)

(** Read off lines 129-205: nothing, one listing, one name resolution, or
    one name resolution followed by one update of the exact match it
    returned, with a non-empty patch. *)
Inductive run_calls {W : Type} {backend : Backend W}
    (wpCredentials : Credentials) (w : W) : list call -> Prop :=
| run_no_call : run_calls wpCredentials w []
| run_listing : run_calls wpCredentials w [CallGetCategories]
| run_resolution (categoryName : json) :
    run_calls wpCredentials w [CallGetCategoryByName categoryName]
| run_update (categoryName : json) (found : Resolution) (w1 : W)
      (category : WPCategory.t) (updatePayload : UpdatePayload) :
    getCategoryByName wpCredentials categoryName w = (Returned found, w1) ->
    exactMatch found = Some category ->
    updatePayload <> ∅ ->
    run_calls wpCredentials w
      [CallGetCategoryByName categoryName;
       CallUpdateCategoryMetadata (WPCategory.id category) updatePayload].

(** A run ends in a state whose log extends the initial one by calls of
    such a shape. *)
Definition extends_by_run {W : Type} {backend : Backend W}
    (wpCredentials : Credentials) (w : W) (log : list call)
    {A : Type} (result : outcome A * (W * list call)) : Prop :=
  exists added : list call,
    result.2.2 = (log ++ added)%list /\ run_calls wpCredentials w added.

(** ** The rest of [src/types.ts] *)

Module ConnectionStatus.
Inductive t := disconnected | connecting | connected | error.
End ConnectionStatus.

Module Sender.
Inductive t := User | AI.
End Sender.

Module Message.
Record t := {
  id : Z;
  text : string;
  sender : Sender.t;
  timestamp : string
}.
End Message.

(** ** The browser: [localStorage] and the class list of the document *)

(** [localStorage]: its items, and which writes it accepts ([setItem]
    raises when the quota is exceeded). *)
Record Storage := {
  items : gmap string string;
  accepts : string -> string -> bool
}.

(** [localStorage.getItem(k)]: [None] for [null]. *)
Definition getItem (k : string) (s : Storage) : option string := items s !! k.

(** [localStorage.setItem(k, v)]: [None] when it raises. *)
Definition setItem (k v : string) (s : Storage) : option Storage :=
  if accepts s k v
  then Some {| items := <[k := v]> (items s); accepts := accepts s |}
  else None.

(** ** The theme, lines 27-49 of [src/App.tsx] *)

(** The initialiser of lines 27-36.  The saved string is cast, not
    checked, so a theme is kept as the string it is.  [matchMedia] is
    [None] when [window.matchMedia] is missing, else whether the query
    [(prefers-color-scheme: dark)] matches. *)
Definition initialTheme (localStorage : Storage) (matchMedia : option bool)
    : string :=
  let fallback :=
    match matchMedia with
    | Some true => "dark"
    | _ => "light"
    end in
  match getItem "theme" localStorage with
  | Some savedTheme => if savedTheme =? EmptyString then fallback else savedTheme
  | None => fallback
  end.

(** The effect of lines 38-45 on the class list of the document element
    and on [localStorage]; the second component is [None] when [setItem]
    raises, after the class list has been changed. *)
Definition themeEffect (theme : string) (classList : gset string)
    (localStorage : Storage) : gset string * option Storage :=
  let classList' :=
    if theme =? "dark" then classList ∪ {["dark"]} else classList ∖ {["dark"]} in
  (classList', setItem "theme" theme localStorage).

(** Lines 47-49. *)
Definition toggleTheme (prevTheme : string) : string :=
  if prevTheme =? "light" then "dark" else "light".

(** ** The chat history in [localStorage], lines 15-23 and 52-58 *)

Section History.
Variable JSON_parse : string -> option json.
(** [JSON.stringify] of the message list. *)
Variable JSON_stringify : list Message.t -> string.

(** The initialiser of lines 15-23: what [JSON.parse] makes of the saved
    text, unchecked; the empty array when there is no text, or when
    decoding raises. *)
Definition initialMessages (localStorage : Storage) : json :=
  match getItem "chatHistory" localStorage with
  | Some savedMessages =>
      if savedMessages =? EmptyString then JArr []
      else match JSON_parse savedMessages with
           | Some parsed => parsed
           | None => JArr []
           end
  | None => JArr []
  end.

(** The effect of lines 52-58: a write that raises is logged and
    otherwise ignored. *)
Definition saveHistory (messages : list Message.t) (localStorage : Storage)
    : Storage :=
  match setItem "chatHistory" (JSON_stringify messages) localStorage with
  | Some localStorage' => localStorage'
  | None => localStorage
  end.
End History.

(** ** The state of the component and its handlers *)

(** The React state of lines 11-25.  [abortControllerRef] holds the index
    of an [AbortController] in [controllers], where each controller is its
    [signal.aborted] flag: a controller stays reachable from the call of
    [handleSendMessage] that created it after the ref has moved on. *)
Module AppState.
Record t := {
  wpCredentials : option Credentials;
  wpStatus : ConnectionStatus.t;
  geminiStatus : ConnectionStatus.t;
  messages : list Message.t;
  isTyping : bool;
  abortControllerRef : option nat;
  controllers : list bool
}.
End AppState.

(** The text of line 85. *)
Definition welcome_text : string :=
  "Bonjour ! Je suis votre assistant IA pour WordPress. Comment puis-je vous aider aujourd'hui ? Vous pouvez me demander de "
  +:+ dq +:+ "lister les catégories de produits" +:+ dq +:+ " pour commencer.".

(** [handleLogin], lines 60-90.  [validation] is what the two validators
    of line 64 resolve to ([None] when [Promise.all] rejects, which leaves
    the handler after line 62); [now] and [timestamp] are [Date.now()] and
    the formatted time of line 87. *)
Definition handleLogin (creds : Credentials) (validation : option (bool * bool))
    (now : Z) (timestamp : string) (st : AppState.t) : AppState.t :=
  match validation with
  | None =>
      {| AppState.wpCredentials := AppState.wpCredentials st;
         AppState.wpStatus := ConnectionStatus.connecting;
         AppState.geminiStatus := ConnectionStatus.connecting;
         AppState.messages := AppState.messages st;
         AppState.isTyping := AppState.isTyping st;
         AppState.abortControllerRef := AppState.abortControllerRef st;
         AppState.controllers := AppState.controllers st |}
  | Some (wpSuccess, geminiSuccess) =>
      {| AppState.wpCredentials :=
           if wpSuccess then Some creds else AppState.wpCredentials st;
         AppState.wpStatus :=
           if wpSuccess then ConnectionStatus.connected
           else ConnectionStatus.error;
         AppState.geminiStatus :=
           if geminiSuccess then ConnectionStatus.connected
           else ConnectionStatus.error;
         AppState.messages :=
           if wpSuccess && geminiSuccess then
             [ {| Message.id := now;
                  Message.text := welcome_text;
                  Message.sender := Sender.AI;
                  Message.timestamp := timestamp |} ]
           else AppState.messages st;
         AppState.isTyping := AppState.isTyping st;
         AppState.abortControllerRef := AppState.abortControllerRef st;
         AppState.controllers := AppState.controllers st |}
  end.

(** [handleStopGeneration], lines 92-98: the controller the ref points to
    is aborted and the ref cleared; typing stops. *)
Definition handleStopGeneration (st : AppState.t) : AppState.t :=
  {| AppState.wpCredentials := AppState.wpCredentials st;
     AppState.wpStatus := AppState.wpStatus st;
     AppState.geminiStatus := AppState.geminiStatus st;
     AppState.messages := AppState.messages st;
     AppState.isTyping := false;
     AppState.abortControllerRef := None;
     AppState.controllers :=
       match AppState.abortControllerRef st with
       | Some controller => <[controller := true]> (AppState.controllers st)
       | None => AppState.controllers st
       end |}.

(** [controller.signal.aborted], line 119. *)
Definition aborted (st : AppState.t) (controller : nat) : bool :=
  match AppState.controllers st !! controller with
  | Some flag => flag
  | None => false
  end.

(** What one call of [handleSendMessage] holds across its [await]: its own
    controller and the credentials it closed over. *)
Record Pending := {
  controller : nat;
  credentials : Credentials
}.

(** How far a call of [handleSendMessage] got once the model replied:
    stopped on line 121, or through the [switch] with the value left in
    [actionResponse]. *)
Inductive turn :=
| Stopped
| Dispatched (actionResponse : option string).

Section SendMessage.
Context {W : Type} {backend : Backend W}.
Variable JSON_parse : string -> option json.
(** [String.prototype.trim]. *)
Variable trim : string -> string.

(** [handleSendMessage] up to the [await] of line 117 (lines 100-114):
    [None] when line 101 returns; otherwise the user's message is appended
    as typed, typing starts, and a fresh controller replaces the one in the
    ref. *)
Definition handleSendMessage_begin (text : string) (now : Z) (timestamp : string)
    (st : AppState.t) : AppState.t * option Pending :=
  match AppState.wpCredentials st with
  | None => (st, None)
  | Some wpCredentials =>
      if trim text =? EmptyString then (st, None)
      else
        let userMessage :=
          {| Message.id := now;
             Message.text := text;
             Message.sender := Sender.User;
             Message.timestamp := timestamp |} in
        let controller := length (AppState.controllers st) in
        ({| AppState.wpCredentials := AppState.wpCredentials st;
            AppState.wpStatus := AppState.wpStatus st;
            AppState.geminiStatus := AppState.geminiStatus st;
            AppState.messages := (AppState.messages st ++ [userMessage])%list;
            AppState.isTyping := true;
            AppState.abortControllerRef := Some controller;
            AppState.controllers := (AppState.controllers st ++ [false])%list |},
         Some {| controller := controller; credentials := wpCredentials |})
  end.

(** [handleSendMessage] from the reply of the model to the end of the
    [switch] (lines 117-205), in the state [st] the component is in when
    the reply arrives. *)
Definition handleSendMessage_resume (pending : Pending) (aiResponseText : string)
    (st : AppState.t) : M W turn :=
  if aborted st (controller pending) then ret Stopped
  else
    let! actionResponse :=
      runAction JSON_parse (credentials pending) aiResponseText in
    ret (Dispatched actionResponse).
End SendMessage.

(** What the handlers keep true of the state: a WordPress status of
    connected comes with stored credentials, and the ref, when set, points
    to a controller that exists and has not been aborted. *)
Definition well_formed (st : AppState.t) : Prop :=
  (AppState.wpStatus st = ConnectionStatus.connected ->
   AppState.wpCredentials st <> None) /\
  (forall c : nat,
     AppState.abortControllerRef st = Some c ->
     AppState.controllers st !! c = Some false).

(** ** More examples *)

Definition fresh_app : AppState.t :=
  {| AppState.wpCredentials := None;
     AppState.wpStatus := ConnectionStatus.disconnected;
     AppState.geminiStatus := ConnectionStatus.disconnected;
     AppState.messages := [];
     AppState.isTyping := false;
     AppState.abortControllerRef := None;
     AppState.controllers := [] |}.

(** The state after a successful login at time 1000. *)
Definition logged_in_app : AppState.t :=
  handleLogin example_credentials (Some (true, true)) 1000 "10:00" fresh_app.

(** A [trim] for texts made of letters and spaces: it removes the leading
    spaces (enough to tell a blank text). *)
Fixpoint example_trim (s : string) : string :=
  match s with
  | String c rest => if Ascii.eqb c " "%char then example_trim rest else s
  | EmptyString => EmptyString
  end.

Definition roomy_storage : Storage :=
  {| items := ∅; accepts := fun _ _ => true |}.
Definition full_storage : Storage :=
  {| items := {["theme" := "light"]}; accepts := fun _ _ => false |}.

(** Further replies of the model, and a decoder that knows them too. *)
Definition ask_nothing : list (string * string) := [].
Definition retitle_nothing : list (string * string) := [("metaTitle", "New Title")].
Definition ask_shoe : list (string * string) := [("categoryName", "Shoe")].
Definition ask_sh : list (string * string) := [("categoryName", "Sh")].
Definition retitle_sh : list (string * string) :=
  [("categoryName", "Sh"); ("metaTitle", "New Title")].
Definition retitle_hats : list (string * string) :=
  [("categoryName", "Hats"); ("metaTitle", "New Title")].

Definition more_replies : list (string * option (list (string * string))) :=
  [ ("GET_CATEGORY_METADATA", Some ask_nothing);
    ("GET_CATEGORY_METADATA", Some ask_shoe);
    ("GET_CATEGORY_METADATA", None);
    ("UPDATE_CATEGORY_METADATA", Some retitle_nothing);
    ("UPDATE_CATEGORY_METADATA", Some retitle_hats);
    ("GET_CATEGORY_METADATA", Some ask_sh);
    ("UPDATE_CATEGORY_METADATA", Some retitle_sh) ].

Definition more_parse (text : string) : option json :=
  match List.find (fun r => action_text r.1 r.2 =? text)
          (example_replies ++ more_replies) with
  | Some r => Some (action_value r.1 r.2)
  | None => None
  end.

Definition offline_shop : Site :=
  {| catalog := [shoes; shirts; sandals]; reachable := false; writable := true |}.

(** A stand-in for [JSON.stringify] on a history: the array of the texts
    of the messages; and a decoder that knows the history of one message
    saying Bonjour. *)
Definition texts_stringify (messages : list Message.t) : string :=
  "[" +:+ String.concat "," (map (fun m => quoted (Message.text m)) messages)
  +:+ "]".

Definition bonjour : Message.t :=
  {| Message.id := 1001; Message.text := "Bonjour";
     Message.sender := Sender.User; Message.timestamp := "10:01" |}.

Definition texts_parse (text : string) : option json :=
  if text =? texts_stringify [bonjour] then Some (JArr [JStr "Bonjour"])
  else None.

(** * Properties *)

(** ** The patch of an update *)

Lemma lookup_assign_if_defined k v (o : UpdatePayload) k' :
  assign_if_defined k v o !! k' =
  if decide (k = k') then (match v with Some x => Some x | None => o !! k' end)
  else o !! k'.
Proof.
  unfold assign_if_defined. destruct v as [x|]; case_decide; subst;
    simplify_map_eq; done.
Qed.

Lemma lookup_assign_if_truthy k v (o : UpdatePayload) k' :
  assign_if_truthy k v o !! k' =
  if decide (k = k')
  then (match when_truthy v with Some x => Some x | None => o !! k' end)
  else o !! k'.
Proof.
  unfold assign_if_truthy, when_truthy, truthy_opt.
  destruct v as [x|]; [destruct (truthy x)|]; case_decide; subst;
    simplify_map_eq; done.
Qed.

Lemma buildUpdatePayload_lookup d n s t m f k :
  buildUpdatePayload d n s t m f !! k =
  if decide (k = "description") then d
  else if decide (k = "name") then when_truthy n
  else if decide (k = "slug") then when_truthy s
  else if decide (k = "_yoast_wpseo_title") then when_truthy t
  else if decide (k = "_yoast_wpseo_metadesc") then when_truthy m
  else if decide (k = "_yoast_wpseo_focuskw") then when_truthy f
  else None.
Proof.
  unfold buildUpdatePayload.
  rewrite !lookup_assign_if_truthy, lookup_assign_if_defined, lookup_empty.
  repeat case_decide; subst; try done;
    repeat match goal with
           | |- context [when_truthy ?v] => destruct (when_truthy v)
           | |- context [match ?d with Some _ => _ | None => _ end] => destruct d
           end; done.
Qed.

(** Closes a goal whose hypothesis equates two runs that end with different
    replies. *)
Ltac wrong_reply H :=
  exfalso;
  first
    [ discriminate H
    | injection H; intros;
      match goal with
      | Hm : _ = msg_update_success _ |- _ => cbv in Hm; discriminate Hm
      end ].

(** ** Running the dispatcher *)

Section DispatcherFacts.
Context {W : Type} {backend : Backend W}.
Variable JSON_parse : string -> option json.
Variable wpCredentials : Credentials.

Lemma run_announced aiResponseText tag top s :
  announces JSON_parse aiResponseText tag top ->
  tag <> EmptyString ->
  runAction JSON_parse wpCredentials aiResponseText s =
  (if tag =? "LIST_CATEGORIES" then
     case_LIST_CATEGORIES wpCredentials
   else if tag =? "GET_CATEGORY_METADATA" then
     case_GET_CATEGORY_METADATA wpCredentials (JObj top)
   else if tag =? "UPDATE_CATEGORY_METADATA" then
     case_UPDATE_CATEGORY_METADATA wpCredentials (JObj top)
   else if tag =? "COPY_YOAST_META_DESC_TO_DESC" then
     case_COPY_YOAST_META_DESC_TO_DESC wpCredentials (JObj top)
   else ret None) s.
Proof.
  intros [Hparse Haction] Hne.
  unfold runAction, bind, lift. rewrite Hparse. cbn [get_prop].
  rewrite Haction. cbn [truthy_opt truthy].
  destruct (String.eqb_spec tag EmptyString) as [->|_]; [done | reflexivity].
Qed.

Lemma run_update_exact aiResponseText fields categoryName category w w1 log :
  decodes_to JSON_parse aiResponseText "UPDATE_CATEGORY_METADATA" fields ->
  fields !! "categoryName" = Some categoryName ->
  truthy categoryName = true ->
  resolves_exactly wpCredentials categoryName w category w1 ->
  runAction JSON_parse wpCredentials aiResponseText (w, log) =
  if (size (patch_of fields) =? 0)%nat
  then (Returned (Some msg_nothing_to_change),
        (w1, (log ++ [CallGetCategoryByName categoryName])%list))
  else
    let '(answer, w2) :=
      updateCategoryMetadata wpCredentials (WPCategory.id category)
        (patch_of fields) w1 in
    (after_update fields categoryName answer,
     (w2, (log ++ [CallGetCategoryByName categoryName;
                   CallUpdateCategoryMetadata (WPCategory.id category)
                     (patch_of fields)])%list)).
Proof.
  intros (top & Hann & Hpayload) Hname Htruthy (found & Hfound & Hexact).
  rewrite (run_announced _ _ _ _ Hann) by done. simpl.
  unfold case_UPDATE_CATEGORY_METADATA, bind, lift. cbn [get_prop].
  rewrite Hpayload. cbn [get_prop]. rewrite Hname, Htruthy. simpl.
  unfold await_getCategoryByName. rewrite Hfound, Hexact.
  fold (patch_of fields).
  destruct (size (patch_of fields) =? 0)%nat; [reflexivity|].
  unfold try_catch, bind, await_updateCategoryMetadata.
  destruct (updateCategoryMetadata _ _ _ _) as [[[]|e] w2];
    rewrite <- app_assoc; simpl; unfold after_update, tpl, ToString_opt;
    repeat match goal with
           | |- context [match ?x with Some _ => _ | None => _ end] =>
               destruct x; simpl
           end; reflexivity.
Qed.

Lemma run_get_exact aiResponseText fields categoryName category w w1 log :
  decodes_to JSON_parse aiResponseText "GET_CATEGORY_METADATA" fields ->
  fields !! "categoryName" = Some categoryName ->
  truthy categoryName = true ->
  resolves_exactly wpCredentials categoryName w category w1 ->
  runAction JSON_parse wpCredentials aiResponseText (w, log) =
  (Returned (Some (metadataResponse category)),
   (w1, (log ++ [CallGetCategoryByName categoryName])%list)).
Proof.
  intros (top & Hann & Hpayload) Hname Htruthy (found & Hfound & Hexact).
  rewrite (run_announced _ _ _ _ Hann) by done. simpl.
  unfold case_GET_CATEGORY_METADATA, bind, lift. cbn [get_prop].
  rewrite Hpayload. cbn [get_prop]. rewrite Hname, Htruthy. simpl.
  unfold await_getCategoryByName. rewrite Hfound, Hexact. reflexivity.
Qed.

Lemma update_calls_app log1 log2 :
  update_calls (log1 ++ log2) = (update_calls log1 + update_calls log2)%nat.
Proof. unfold update_calls. by rewrite List.filter_app, length_app. Qed.

Lemma size_zero_iff (p : UpdatePayload) : (size p =? 0)%nat = true <-> p = ∅.
Proof. rewrite Nat.eqb_eq. apply map_size_empty_iff. Qed.

(** C1. For an UpdateCategoryMetadata payload whose name resolves to an
    exact match, the patch handed to the update service holds
    [description] exactly when the payload has the property (whatever its
    value, the empty string included), holds [name], [slug] and the three
    SEO fields exactly when the payload's value is truthy, each with the
    payload's value, and holds no other key. *)
Theorem update_patch_fields aiResponseText fields categoryName category w w1 log :
  decodes_to JSON_parse aiResponseText "UPDATE_CATEGORY_METADATA" fields ->
  fields !! "categoryName" = Some categoryName ->
  truthy categoryName = true ->
  resolves_exactly wpCredentials categoryName w category w1 ->
  exists updatePayload : UpdatePayload,
    updatePayload !! "description" = fields !! "description" /\
    updatePayload !! "name" = when_truthy (fields !! "name") /\
    updatePayload !! "slug" = when_truthy (fields !! "slug") /\
    updatePayload !! "_yoast_wpseo_title" = when_truthy (fields !! "metaTitle") /\
    updatePayload !! "_yoast_wpseo_metadesc"
      = when_truthy (fields !! "metaDescription") /\
    updatePayload !! "_yoast_wpseo_focuskw"
      = when_truthy (fields !! "focusKeyphrase") /\
    (forall k : string,
       k ∉ ["description"; "name"; "slug"; "_yoast_wpseo_title";
            "_yoast_wpseo_metadesc"; "_yoast_wpseo_focuskw"] ->
       updatePayload !! k = None) /\
    (updatePayload <> ∅ ->
     exists (answer : outcome (option string)) (w2 : W),
       runAction JSON_parse wpCredentials aiResponseText (w, log) =
       (answer,
        (w2, (log ++ [CallGetCategoryByName categoryName;
                      CallUpdateCategoryMetadata (WPCategory.id category)
                        updatePayload])%list))).
Proof.
  intros Hdec Hname Htruthy Hexact.
  exists (patch_of fields). unfold patch_of at 1 2 3 4 5 6 7.
  repeat split; try (rewrite buildUpdatePayload_lookup; reflexivity).
  - intros k Hk. rewrite buildUpdatePayload_lookup.
    repeat case_decide; subst; try reflexivity; exfalso; apply Hk; set_solver.
  - intros Hnonempty.
    rewrite (run_update_exact _ _ _ _ _ _ _ Hdec Hname Htruthy Hexact).
    destruct (size (patch_of fields) =? 0)%nat eqn:Hsize.
    + apply size_zero_iff in Hsize. contradiction.
    + destruct (updateCategoryMetadata _ _ _ _) as [answer w2]. eauto.
Qed.

(** C2. When the payload of an UpdateCategoryMetadata action resolves to an
    exact match but yields an empty patch, the dispatcher answers, in these
    words, that there is no modification to apply and that a field to
    modify must be given, and makes no call to the update service: the only
    call added to the log is the name resolution. *)
Theorem empty_patch_makes_no_update aiResponseText fields categoryName category
    w w1 log :
  decodes_to JSON_parse aiResponseText "UPDATE_CATEGORY_METADATA" fields ->
  fields !! "categoryName" = Some categoryName ->
  truthy categoryName = true ->
  resolves_exactly wpCredentials categoryName w category w1 ->
  patch_of fields = ∅ ->
  exists log' : list call,
    runAction JSON_parse wpCredentials aiResponseText (w, log) =
    (Returned (Some "Aucune modification à appliquer. Veuillez spécifier un champ à modifier."),
     (w1, log')) /\
    log' = (log ++ [CallGetCategoryByName categoryName])%list /\
    update_calls log' = update_calls log.
Proof.
  intros Hdec Hname Htruthy Hexact Hempty.
  eexists. split; [|split; [reflexivity|]].
  - rewrite (run_update_exact _ _ _ _ _ _ _ Hdec Hname Htruthy Hexact).
    apply size_zero_iff in Hempty. rewrite Hempty. reflexivity.
  - rewrite update_calls_app. unfold update_calls. simpl. lia.
Qed.

(** C7. When the update service rejects the call of an
    UpdateCategoryMetadata action, the dispatcher still returns normally,
    with the message that an error occurred while updating the category,
    which quotes the category name as it was asked for, and the update
    service has been called exactly once. *)
Theorem update_error_is_caught aiResponseText fields categoryName shown category
    w w1 w2 log e :
  decodes_to JSON_parse aiResponseText "UPDATE_CATEGORY_METADATA" fields ->
  fields !! "categoryName" = Some categoryName ->
  truthy categoryName = true ->
  ToString categoryName = Some shown ->
  resolves_exactly wpCredentials categoryName w category w1 ->
  patch_of fields <> ∅ ->
  updateCategoryMetadata wpCredentials (WPCategory.id category)
    (patch_of fields) w1 = (Thrown e, w2) ->
  exists log' : list call,
    runAction JSON_parse wpCredentials aiResponseText (w, log) =
    (Returned
       (Some ("Une erreur est survenue lors de la mise à jour de la catégorie "
               +:+ dq +:+ shown +:+ dq +:+ ".")),
     (w2, log')) /\
    log' = (log ++ [CallGetCategoryByName categoryName;
                    CallUpdateCategoryMetadata (WPCategory.id category)
                      (patch_of fields)])%list /\
    update_calls log' = S (update_calls log).
Proof.
  intros Hdec Hname Htruthy Hshown Hexact Hnonempty Hreject.
  eexists. split; [|split; [reflexivity|]].
  - rewrite (run_update_exact _ _ _ _ _ _ _ Hdec Hname Htruthy Hexact).
    destruct (size (patch_of fields) =? 0)%nat eqn:Hsize.
    + apply size_zero_iff in Hsize. contradiction.
    + rewrite Hreject. unfold after_update. rewrite Hshown. reflexivity.
  - rewrite update_calls_app. unfold update_calls. simpl. lia.
Qed.

Lemma or_default_rendered (field : option string) (placeholder : string) :
  rendered field placeholder (or_default field placeholder).
Proof.
  unfold rendered, or_default. destruct field as [x|]; [|right; auto].
  destruct (String.eqb_spec x EmptyString) as [->|Hne].
  - right. auto.
  - left. exists x. auto.
Qed.


Lemma rendered_blank field placeholder shown :
  rendered field placeholder shown ->
  field = None \/ field = Some EmptyString -> shown = placeholder.
Proof.
  intros [(x & -> & Hx & ->)|[_ ->]] Hblank; [|reflexivity].
  destruct Hblank as [?|[= ->]]; [discriminate | contradiction].
Qed.

(** C4. On an empty catalog the ListCategories branch answers with the
    list header followed by one bullet that names nothing; no other text is
    produced for that case. *)
Theorem list_of_empty_catalog aiResponseText top w w1 log :
  announces JSON_parse aiResponseText "LIST_CATEGORIES" top ->
  getCategories wpCredentials w = (Returned [], w1) ->
  runAction JSON_parse wpCredentials aiResponseText (w, log) =
  (Returned
     (Some ("Voici les catégories de produits trouvées : " +:+ nl +:+ nl +:+ " - ")),
   (w1, (log ++ [CallGetCategories])%list)).
Proof.
  intros Hann Hlist.
  rewrite (run_announced _ _ _ _ Hann) by done. simpl.
  unfold case_LIST_CATEGORIES, bind, await_getCategories.
  rewrite Hlist. reflexivity.
Qed.

(** C5. The CopyMetaDescriptionToDescription branch leaves the dispatcher
    without a response and without having called any service, whatever
    category name the payload carries: the name is not resolved and nothing
    is copied. *)
Theorem copy_action_does_nothing aiResponseText fields s :
  decodes_to JSON_parse aiResponseText "COPY_YOAST_META_DESC_TO_DESC" fields ->
  runAction JSON_parse wpCredentials aiResponseText s = (Returned None, s).
Proof.
  intros (top & Hann & Hpayload).
  rewrite (run_announced _ _ _ _ Hann) by done. simpl.
  unfold case_COPY_YOAST_META_DESC_TO_DESC, bind, lift. cbn [get_prop].
  rewrite Hpayload. cbn [get_prop].
  destruct (negb (truthy_opt (fields !! "categoryName"))); reflexivity.
Qed.


(** C10. On the read path a field that is present with the empty string is
    shown exactly as an absent one: in the five labelled lines of the
    response, the line of such a field carries the placeholder in both
    cases (Non définie for the description, the SEO meta description and
    the focus keyphrase, Non défini for the slug and the SEO title). *)
Theorem metadata_blank_as_absent aiResponseText fields categoryName category
    w w1 log :
  decodes_to JSON_parse aiResponseText "GET_CATEGORY_METADATA" fields ->
  fields !! "categoryName" = Some categoryName ->
  truthy categoryName = true ->
  resolves_exactly wpCredentials categoryName w category w1 ->
  exists description slug yoastTitle yoastDesc yoastFocusKw : string,
    runAction JSON_parse wpCredentials aiResponseText (w, log) =
    (Returned
       (Some ("Voici les métadonnées pour " +:+ dq +:+ WPCategory.name category +:+ dq
              +:+ ":" +:+ nl +:+ nl
              +:+ "- Description: " +:+ description +:+ nl
              +:+ "- Slug: " +:+ slug +:+ nl
              +:+ "- Titre SEO (Yoast): " +:+ yoastTitle +:+ nl
              +:+ "- Méta Description (Yoast): " +:+ yoastDesc +:+ nl
              +:+ "- Expression-clé principale (Yoast): " +:+ yoastFocusKw)),
     (w1, (log ++ [CallGetCategoryByName categoryName])%list)) /\
    (WPCategory.description category = EmptyString ->
     description = "Non définie") /\
    (WPCategory.slug category = EmptyString -> slug = "Non défini") /\
    (seo_title category = None \/ seo_title category = Some EmptyString ->
     yoastTitle = "Non défini") /\
    (seo_description category = None \/
     seo_description category = Some EmptyString ->
     yoastDesc = "Non définie") /\
    (WPCategory._yoast_wpseo_focuskw category = None \/
     WPCategory._yoast_wpseo_focuskw category = Some EmptyString ->
     yoastFocusKw = "Non définie").
Proof.
  intros Hdec Hname Htruthy Hexact.
  rewrite (run_get_exact _ _ _ _ _ _ _ Hdec Hname Htruthy Hexact).
  unfold metadataResponse.
  do 5 eexists. split; [reflexivity|].
  repeat split; intros Hblank;
    (eapply rendered_blank; [apply or_default_rendered|]);
    try assumption; right; by rewrite Hblank.
Qed.

(** A run of the update branch that ends with the success message went
    through an exact match, a non-empty patch and an answer of the update
    service. *)
Lemma update_success_inv aiResponseText fields shown w log w2 log2 :
  decodes_to JSON_parse aiResponseText "UPDATE_CATEGORY_METADATA" fields ->
  runAction JSON_parse wpCredentials aiResponseText (w, log) =
  (Returned (Some (msg_update_success shown)), (w2, log2)) ->
  exists (categoryName : json) (category : WPCategory.t) (w1 : W),
    fields !! "categoryName" = Some categoryName /\
    truthy categoryName = true /\
    resolves_exactly wpCredentials categoryName w category w1 /\
    patch_of fields <> ∅ /\
    exists u : unit,
      updateCategoryMetadata wpCredentials (WPCategory.id category)
        (patch_of fields) w1 = (Returned u, w2) /\
      after_update fields categoryName (Returned u) =
      Returned (Some (msg_update_success shown)).
Proof.
  intros Hdec Hrun. pose proof Hdec as (top & Hann & Hpayload).
  pose proof Hrun as Hrun'.
  rewrite (run_announced _ _ _ _ Hann) in Hrun' by done. simpl in Hrun'.
  unfold case_UPDATE_CATEGORY_METADATA, bind, lift in Hrun'.
  cbn [get_prop] in Hrun'. rewrite Hpayload in Hrun'. cbn [get_prop] in Hrun'.
  destruct (fields !! "categoryName") as [cn|] eqn:Hname;
    [|wrong_reply Hrun'].
  destruct (truthy cn) eqn:Htruthy; [|wrong_reply Hrun'].
  simpl in Hrun'. unfold await_getCategoryByName in Hrun'.
  destruct (getCategoryByName wpCredentials cn w) as [[found|e] w1] eqn:Hfound;
    [|discriminate Hrun'].
  destruct (exactMatch found) as [c|] eqn:Hexact.
  - clear Hrun'.
    assert (Hres : resolves_exactly wpCredentials cn w c w1) by (exists found; auto).
    rewrite (run_update_exact _ _ _ _ _ _ _ Hdec Hname Htruthy Hres) in Hrun.
    exists cn, c, w1. repeat split; auto.
    + intros Hempty. apply size_zero_iff in Hempty. rewrite Hempty in Hrun.
      wrong_reply Hrun.
    + destruct (size (patch_of fields) =? 0)%nat; [wrong_reply Hrun|].
      destruct (updateCategoryMetadata _ _ _ _) as [[u|e] w2'] eqn:Hupd.
      * exists u. injection Hrun as Hmsg -> _. auto.
      * exfalso. unfold after_update in Hrun.
        destruct (ToString cn); wrong_reply Hrun.
  - exfalso. unfold tpl, ToString_opt in Hrun'.
    destruct (0 <? length (suggestions found))%nat, (ToString cn);
      wrong_reply Hrun'.
Qed.

(** Without an exact match the update branch stops after the name
    resolution. *)
Lemma run_update_no_exact aiResponseText fields categoryName found w w1 log :
  decodes_to JSON_parse aiResponseText "UPDATE_CATEGORY_METADATA" fields ->
  fields !! "categoryName" = Some categoryName ->
  truthy categoryName = true ->
  getCategoryByName wpCredentials categoryName w = (Returned found, w1) ->
  exactMatch found = None ->
  exists out : outcome (option string),
    runAction JSON_parse wpCredentials aiResponseText (w, log) =
    (out, (w1, (log ++ [CallGetCategoryByName categoryName])%list)).
Proof.
  intros (top & Hann & Hpayload) Hname Htruthy Hfound Hexact.
  rewrite (run_announced _ _ _ _ Hann) by done. simpl.
  unfold case_UPDATE_CATEGORY_METADATA, bind, lift. cbn [get_prop].
  rewrite Hpayload. cbn [get_prop]. rewrite Hname, Htruthy. simpl.
  unfold await_getCategoryByName. rewrite Hfound, Hexact.
  unfold tpl, ToString_opt.
  destruct (0 <? length (suggestions found))%nat, (ToString categoryName);
    eauto.
Qed.

End DispatcherFacts.

(** ** Replies without an action *)

Section ConversationFacts.
Context {W : Type} {backend : Backend W}.
Variable JSON_parse : string -> option json.
Variable wpCredentials : Credentials.

Lemma known_action_false tag :
  known_action tag = false ->
  (tag =? "LIST_CATEGORIES") = false /\
  (tag =? "GET_CATEGORY_METADATA") = false /\
  (tag =? "UPDATE_CATEGORY_METADATA") = false /\
  (tag =? "COPY_YOAST_META_DESC_TO_DESC") = false.
Proof.
  unfold known_action. rewrite !orb_false_iff. tauto.
Qed.

(** From the sources alone: a reply that cannot be decoded, or that carries
    no recognised action, reaches no service and leaves [actionResponse]
    null, unless it raises SyntaxError or TypeError inside the [try]. *)
Lemma runAction_without_action aiResponseText s :
  (forall v : json, JSON_parse aiResponseText = Some v -> recognised v = false) ->
  runAction JSON_parse wpCredentials aiResponseText s = (Returned None, s) \/
  runAction JSON_parse wpCredentials aiResponseText s = (Thrown SyntaxError, s) \/
  runAction JSON_parse wpCredentials aiResponseText s = (Thrown TypeError, s).
Proof.
  intros Hnone. unfold runAction, bind, lift.
  destruct (JSON_parse aiResponseText) as [v|]; [|auto].
  specialize (Hnone v eq_refl). unfold recognised in Hnone.
  destruct v as [| | | | |o]; cbn [get_prop] in *; auto.
  destruct (o !! "action") as [[| |n|tag| |]|]; cbn [truthy_opt truthy] in *.
  all: try (apply known_action_false in Hnone as (-> & -> & -> & ->)).
  all: repeat match goal with
              | |- context [if ?b then _ else _] => destruct b
              end; auto.
Qed.

(** C8. Whatever the text of the model, when it is not decodable JSON, or
    decodes to a value whose [action] is absent or not one of the four
    action names, handling it raises nothing, calls no service, and shows
    the raw text itself. *)
Theorem undecodable_reply_is_shown_verbatim aiResponseText s :
  (forall v : json, JSON_parse aiResponseText = Some v -> recognised v = false) ->
  respond JSON_parse wpCredentials aiResponseText s = (Shown aiResponseText, s).
Proof.
  intros Hnone. unfold respond.
  destruct (runAction_without_action aiResponseText s Hnone) as [-> | [-> | ->]];
    reflexivity.
Qed.

End ConversationFacts.

(** ** The Name Resolver *)

Section ResolverFacts.
Variable normalize : string -> string.
Variable score : string -> string -> nat.
Variable threshold : nat.
Variable limit : nat.

Lemma same_name_true queryName c :
  same_name normalize queryName c = true <->
  normalize (WPCategory.name c) = normalize queryName.
Proof. unfold same_name. apply String.eqb_eq. Qed.

Lemma find_first {A} (p : A -> bool) (l : list A) (x : A) :
  In x l -> p x = true ->
  exists (y : A) (before after : list A),
    l = (before ++ y :: after)%list /\ p y = true /\
    (forall b : A, In b before -> p b = false) /\
    List.find p l = Some y.
Proof.
  induction l as [|a l IH]; intros Hin Hp; [destruct Hin|].
  destruct (p a) eqn:Hpa.
  - exists a, [], l. simpl. rewrite Hpa. repeat split; auto. intros b [].
  - destruct Hin as [->|Hin]; [congruence|].
    destruct (IH Hin Hp) as (y & before & after & -> & Hy & Hbefore & Hfind).
    exists y, (a :: before), after. simpl. rewrite Hpa.
    repeat split; auto. intros b [<-|Hb]; auto.
Qed.

(** C3. When the query equals, up to case, the name of some category of the
    catalog, the resolver answers ExactMatch with the first such category
    in catalog order, and the object the dispatcher receives from
    [getCategoryByName] carries that category and no suggestion. *)
Theorem resolve_exact_match (categories : list WPCategory.t) (queryName : string) :
  (exists c : WPCategory.t,
     In c categories /\
     normalize (WPCategory.name c) = normalize queryName) ->
  exists (c0 : WPCategory.t) (before after : list WPCategory.t),
    categories = (before ++ c0 :: after)%list /\
    normalize (WPCategory.name c0) = normalize queryName /\
    (forall b : WPCategory.t,
       In b before -> normalize (WPCategory.name b) <> normalize queryName) /\
    resolve normalize score threshold limit categories queryName = ExactMatch c0 /\
    (forall (wpCredentials : Credentials) (site : Site),
       catalog site = categories -> reachable site = true ->
       @getCategoryByName Site (DirectoryClient normalize score threshold limit)
         wpCredentials (JStr queryName) site =
       (Returned {| exactMatch := Some c0; suggestions := [] |}, site)).
Proof.
  intros (c & Hin & Hname).
  apply same_name_true in Hname.
  destruct (find_first (same_name normalize queryName) categories c Hin Hname)
    as (c0 & before & after & Hsplit & Hc0 & Hbefore & Hfind).
  exists c0, before, after. repeat split; auto.
  - by apply same_name_true.
  - intros b Hb Heq. apply same_name_true in Heq.
    rewrite (Hbefore b Hb) in Heq. discriminate.
  - unfold resolve. by rewrite Hfind.
  - intros wpCredentials site Hcat Hreach. simpl.
    unfold lookupByName, listAll. rewrite Hreach, Hcat.
    unfold resolve. rewrite Hfind. reflexivity.
Qed.

End ResolverFacts.

(** ** The Directory Client: applying a patch twice *)

Lemma patched_idem p k old : patched p k (patched p k old) = patched p k old.
Proof. unfold patched. by destruct (p !! k ≫= as_string). Qed.

Lemma patched_opt_idem p k old :
  patched_opt p k (patched_opt p k old) = patched_opt p k old.
Proof. unfold patched_opt. by destruct (p !! k ≫= as_string). Qed.

Lemma applyPatch_idem p c : applyPatch p (applyPatch p c) = applyPatch p c.
Proof.
  unfold applyPatch. simpl. by rewrite !patched_idem, !patched_opt_idem.
Qed.

Lemma applyPatch_id p c : WPCategory.id (applyPatch p c) = WPCategory.id c.
Proof. reflexivity. Qed.

Lemma patch_catalog_idem i p l :
  patch_catalog i p (patch_catalog i p l) = patch_catalog i p l.
Proof.
  unfold patch_catalog. rewrite map_map. apply map_ext. intros c.
  destruct (has_id i c) eqn:Hid.
  - unfold has_id in *. rewrite applyPatch_id, Hid. apply applyPatch_idem.
  - by rewrite Hid.
Qed.

Lemma patch_catalog_has_id i p l :
  existsb (has_id i) (patch_catalog i p l) = existsb (has_id i) l.
Proof.
  unfold patch_catalog. induction l as [|c l IH]; [reflexivity|].
  simpl. rewrite IH. f_equal.
  destruct (has_id i c) eqn:Hid; [|done].
  unfold has_id in *. by rewrite applyPatch_id.
Qed.

Lemma update_success_inv_site i p site site1 u :
  update i p site = (Returned u, site1) ->
  site1 = {| catalog := patch_catalog i p (catalog site);
             reachable := reachable site;
             writable := writable site |} /\
  (reachable site && writable site && existsb (has_id i) (catalog site)
   && all_strings p) = true.
Proof.
  unfold update.
  destruct (reachable site && writable site && existsb (has_id i) (catalog site)
            && all_strings p); [|discriminate].
  intros [= _ <-]. auto.
Qed.

(** A successful update, issued again on the site it produced, succeeds
    and changes nothing. *)
Lemma update_twice i p site site1 u :
  update i p site = (Returned u, site1) ->
  update i p site1 = (Returned tt, site1).
Proof.
  intros Hupd. apply update_success_inv_site in Hupd as [-> Hok].
  unfold update. simpl. rewrite patch_catalog_has_id, Hok.
  by rewrite patch_catalog_idem.
Qed.

(** After the patch, the query still finds a category with the same id,
    provided the patch does not give the category a name the query does
    not match. *)
Lemma find_after_patch (normalize : string -> string) queryName p l c0 :
  (forall s : string, p !! "name" ≫= as_string = Some s ->
                      normalize s = normalize queryName) ->
  List.find (same_name normalize queryName) l = Some c0 ->
  exists c' : WPCategory.t,
    List.find (same_name normalize queryName) (patch_catalog (WPCategory.id c0) p l)
    = Some c' /\
    WPCategory.id c' = WPCategory.id c0.
Proof.
  intros Hname. set (i := WPCategory.id c0).
  assert (Hpatched : forall a : WPCategory.t,
             same_name normalize queryName (applyPatch p a) = true \/
             same_name normalize queryName (applyPatch p a) = same_name normalize queryName a).
  { intros a. unfold same_name, applyPatch, patched. simpl.
    destruct (p !! "name" ≫= as_string) as [s|] eqn:Hs; [left|right; done].
    rewrite (Hname s eq_refl). apply String.eqb_refl. }
  assert (Hgen : forall l : list WPCategory.t,
             (exists c : WPCategory.t,
                List.find (same_name normalize queryName) l = Some c /\
                WPCategory.id c = i) ->
             exists c' : WPCategory.t,
               List.find (same_name normalize queryName) (patch_catalog i p l) = Some c' /\
               WPCategory.id c' = i).
  { clear l. induction l as [|a l IH]; intros (c & Hfind & Hid); [discriminate|].
    simpl in Hfind. simpl.
    destruct (has_id i a) eqn:Ha.
    - destruct (Hpatched a) as [Htrue|Hsame].
      + rewrite Htrue. exists (applyPatch p a). split; [done|].
        unfold has_id in Ha. rewrite applyPatch_id. by apply Z.eqb_eq.
      + rewrite Hsame. destruct (same_name normalize queryName a).
        * exists (applyPatch p a). split; [done|].
          unfold has_id in Ha. rewrite applyPatch_id. by apply Z.eqb_eq.
        * apply IH. eauto.
    - destruct (same_name normalize queryName a).
      + injection Hfind as ->. exists c. auto.
      + apply IH. eauto. }
  intros Hfind. apply Hgen. eauto.
Qed.

(** After the patch, whatever the query finds has the patched id, provided
    only categories of that id bore the name before. *)
Lemma find_after_patch_id (normalize : string -> string) queryName p l i c' :
  (forall c : WPCategory.t,
     In c l -> same_name normalize queryName c = true -> WPCategory.id c = i) ->
  List.find (same_name normalize queryName) (patch_catalog i p l) = Some c' ->
  WPCategory.id c' = i.
Proof.
  intros Honly Hfind. apply find_some in Hfind as [Hin Hsame].
  unfold patch_catalog in Hin. apply in_map_iff in Hin as (c & <- & Hc).
  destruct (has_id i c) eqn:Hid.
  - rewrite applyPatch_id. unfold has_id in Hid. by apply Z.eqb_eq.
  - by apply Honly.
Qed.

Section DirectoryFacts.
Variable normalize : string -> string.
Variable score : string -> string -> nat.
Variable threshold : nat.
Variable limit : nat.
Variable JSON_parse : string -> option json.
Variable wpCredentials : Credentials.

(** What an exact match says about the site, for the modelled client. *)
Lemma lookupByName_exact_inv categoryName site found site1 category :
  lookupByName normalize score threshold limit categoryName site = (Returned found, site1) ->
  exactMatch found = Some category ->
  exists queryName : string,
    categoryName = JStr queryName /\ site1 = site /\ reachable site = true /\
    List.find (same_name normalize queryName) (catalog site) = Some category.
Proof.
  unfold lookupByName, listAll, resolve.
  destruct (reachable site); [|discriminate].
  destruct categoryName as [| | |queryName| |]; try discriminate.
  intros [= <- <-] Hexact. exists queryName. repeat split; auto.
  destruct (List.find (same_name normalize queryName) (catalog site)); simpl in Hexact;
    congruence.
Qed.

Lemma lookupByName_exact queryName site category :
  reachable site = true ->
  List.find (same_name normalize queryName) (catalog site) = Some category ->
  lookupByName normalize score threshold limit (JStr queryName) site =
  (Returned {| exactMatch := Some category; suggestions := [] |}, site).
Proof.
  intros Hreach Hfind. unfold lookupByName, listAll, resolve.
  by rewrite Hreach, Hfind.
Qed.

(** What the second run of a successful update does on the updated site:
    when the query finds a category there, the run succeeds again with the
    same message, and changes nothing if that category has the id updated
    by the first run; when it finds none, the site is left as it is. *)
Lemma second_run aiResponseText fields shown site log site1 log1 :
  decodes_to JSON_parse aiResponseText "UPDATE_CATEGORY_METADATA" fields ->
  @runAction Site (DirectoryClient normalize score threshold limit) JSON_parse
    wpCredentials aiResponseText (site, log) =
  (Returned (Some (msg_update_success shown)), (site1, log1)) ->
  exists (q : string) (c : WPCategory.t),
    fields !! "categoryName" = Some (JStr q) /\
    List.find (same_name normalize q) (catalog site) = Some c /\
    catalog site1
    = patch_catalog (WPCategory.id c) (patch_of fields) (catalog site) /\
    match List.find (same_name normalize q) (catalog site1) with
    | Some c' =>
        exists (site2 : Site) (log2 : list call),
          @runAction Site (DirectoryClient normalize score threshold limit)
            JSON_parse wpCredentials aiResponseText (site1, log1) =
          (Returned (Some (msg_update_success shown)), (site2, log2)) /\
          (WPCategory.id c' = WPCategory.id c -> site2 = site1)
    | None =>
        exists (out : outcome (option string)) (log2 : list call),
          @runAction Site (DirectoryClient normalize score threshold limit)
            JSON_parse wpCredentials aiResponseText (site1, log1) =
          (out, (site1, log2))
    end.
Proof.
  intros Hdec Hrun.
  destruct (update_success_inv _ _ _ _ _ _ _ _ _ Hdec Hrun)
    as (cn & c & w1 & Hname & Htruthy & (found & Hfound & Hexact)
        & Hnonempty & u & Hupd & Hmsg).
  simpl in Hfound, Hupd.
  destruct (lookupByName_exact_inv _ _ _ _ _ Hfound Hexact)
    as (q & -> & -> & Hreach & Hfind).
  pose proof (update_twice _ _ _ _ _ Hupd) as Hagain.
  apply update_success_inv_site in Hupd as [Hsite1 Hok].
  assert (Hreach1 : reachable site1 = true) by (by rewrite Hsite1).
  exists q, c. split; [done|]. split; [done|]. split; [by rewrite Hsite1|].
  destruct (List.find (same_name normalize q) (catalog site1)) as [c'|]
    eqn:Hfind'.
  - assert (Hres : @resolves_exactly Site
                     (DirectoryClient normalize score threshold limit)
                     wpCredentials (JStr q) site1 c' site1).
    { exists {| exactMatch := Some c'; suggestions := [] |}.
      split; [|reflexivity]. simpl. by apply lookupByName_exact. }
    rewrite (run_update_exact _ _ _ _ _ _ _ _ _ Hdec Hname Htruthy Hres).
    destruct (size (patch_of fields) =? 0)%nat eqn:Hsize.
    { apply size_zero_iff in Hsize. contradiction. }
    assert (Hthere : existsb (has_id (WPCategory.id c')) (catalog site1) = true).
    { apply existsb_exists. exists c'. apply find_some in Hfind' as [Hin _].
      split; [exact Hin | apply Z.eqb_refl]. }
    apply andb_true_iff in Hok as [Hok Hstrings].
    apply andb_true_iff in Hok as [Hok _].
    apply andb_true_iff in Hok as [_ Hwrite].
    assert (Hwrite1 : writable site1 = true) by (by rewrite Hsite1).
    simpl. unfold update at 1. rewrite Hreach1, Hwrite1, Hthere, Hstrings.
    cbn [andb]. destruct u. rewrite Hmsg.
    eexists _, _. split; [reflexivity|].
    intros Hid'. rewrite Hid'. unfold update in Hagain.
    rewrite Hid' in Hthere.
    rewrite Hreach1, Hwrite1, Hthere, Hstrings in Hagain. cbn [andb] in Hagain.
    by injection Hagain.
  - assert (Hlook :
              @getCategoryByName Site
                (DirectoryClient normalize score threshold limit)
                wpCredentials (JStr q) site1
              = (Returned
                   (to_Resolution
                      (resolve normalize score threshold limit
                         (catalog site1) q)), site1)).
    { simpl. unfold lookupByName, listAll. by rewrite Hreach1. }
    assert (Hnone :
              exactMatch
                (to_Resolution
                   (resolve normalize score threshold limit (catalog site1) q))
              = None).
    { unfold resolve. by rewrite Hfind'. }
    destruct (run_update_no_exact _ _ _ _ _ _ _ _ log1 Hdec Hname Htruthy
                Hlook Hnone) as [out Hout].
    eauto.
Qed.

(** C9, as amended. For the modelled Directory Client, when an
    UpdateCategoryMetadata action ends with the success message, the same
    action issued again on the resulting site:
    - leaves the categories as the first run left them, provided the
      action does not rename the category away from the name it is
      addressed by, or no category with another id bears that name up to
      case;
    - ends with the same success message, provided some category of the
      resulting site still bears that name up to case, which is so
      whenever the action does not rename the category away from it. *)
Theorem update_twice_same_state aiResponseText fields shown site log site1 log1 :
  decodes_to JSON_parse aiResponseText "UPDATE_CATEGORY_METADATA" fields ->
  @runAction Site (DirectoryClient normalize score threshold limit) JSON_parse
    wpCredentials aiResponseText (site, log) =
  (Returned
     (Some ("La catégorie " +:+ dq +:+ shown +:+ dq
            +:+ " a été mise à jour avec succès.")),
   (site1, log1)) ->
  let again :=
    @runAction Site (DirectoryClient normalize score threshold limit) JSON_parse
      wpCredentials aiResponseText (site1, log1) in
  (keeps_name normalize fields \/ name_is_unique normalize fields site ->
   again.2.1 = site1) /\
  (still_named normalize fields site1 ->
   again.1 =
   Returned
     (Some ("La catégorie " +:+ dq +:+ shown +:+ dq
            +:+ " a été mise à jour avec succès."))) /\
  (keeps_name normalize fields ->
   still_named normalize fields site1 /\
   exists log2 : list call,
     again =
     (Returned
        (Some ("La catégorie " +:+ dq +:+ shown +:+ dq
               +:+ " a été mise à jour avec succès.")),
      (site1, log2))).
Proof.
  intros Hdec Hrun again. unfold again. clear again.
  destruct (second_run _ _ _ _ _ _ _ Hdec Hrun)
    as (q & c & Hname & Hfind & Hcat1 & Hsecond).
  assert (Hkept : keeps_name normalize fields ->
                  exists c' : WPCategory.t,
                    List.find (same_name normalize q) (catalog site1) = Some c' /\
                    WPCategory.id c' = WPCategory.id c).
  { intros Hkeep. rewrite Hcat1. apply find_after_patch; [|done].
    intros s. unfold patch_of. rewrite buildUpdatePayload_lookup. simpl.
    destruct Hkeep as [-> | (n & q' & Hn & Hq' & Hnorm)]; [discriminate|].
    rewrite Hn. rewrite Hname in Hq'. injection Hq' as <-.
    unfold when_truthy. destruct (truthy_opt (Some (JStr n))); simpl;
      [|discriminate].
    by intros [= <-]. }
  split; [|split].
  - intros Hcond.
    destruct (List.find (same_name normalize q) (catalog site1)) as [c'|]
      eqn:Hfind'.
    + assert (Hid' : WPCategory.id c' = WPCategory.id c).
      { destruct Hcond as [Hkeep | Hunique].
        - destruct (Hkept Hkeep) as (c'' & [= <-] & Hid). exact Hid.
        - rewrite Hcat1 in Hfind'.
          apply (find_after_patch_id normalize q (patch_of fields)
                   (catalog site) (WPCategory.id c) c'); [|done].
          intros d Hd Hsame. apply find_some in Hfind as [Hc Hcsame].
          apply same_name_true in Hsame, Hcsame.
          exact (Hunique q d c Hname Hd Hc Hsame Hcsame). }
      destruct Hsecond as (site2 & log2 & -> & Hsame). cbn [fst snd].
      exact (Hsame Hid').
    + destruct Hsecond as (out & log2 & ->). reflexivity.
  - intros (q' & d & Hq' & Hd & Hdname).
    rewrite Hname in Hq'. injection Hq' as <-.
    apply same_name_true in Hdname.
    destruct (find_first (same_name normalize q) (catalog site1) d Hd Hdname)
      as (y & _ & _ & _ & _ & _ & Hfound).
    rewrite Hfound in Hsecond.
    destruct Hsecond as (site2 & log2 & -> & _). reflexivity.
  - intros Hkeep. destruct (Hkept Hkeep) as (c' & Hfind' & Hid').
    split.
    + exists q, c'. apply find_some in Hfind' as [Hin Hsame].
      apply same_name_true in Hsame. auto.
    + rewrite Hfind' in Hsecond.
      destruct Hsecond as (site2 & log2 & -> & Hsame).
      rewrite (Hsame Hid'). eauto.
Qed.

End DirectoryFacts.

(** ** The properties at work on the example shop *)

Lemma example_decodes tag payload :
  example_parse (action_text tag (Some payload))
  = Some (action_value tag (Some payload)) ->
  decodes_to example_parse (action_text tag (Some payload)) tag
    (payload_fields payload).
Proof.
  intros Hparse. exists (action_object tag (Some payload)).
  split; [split|]; [exact Hparse | reflexivity | reflexivity].
Qed.

Lemma shoes_resolve_exactly site :
  catalog site = [shoes; shirts; sandals] -> reachable site = true ->
  @resolves_exactly Site example_client example_credentials (JStr "Shoes")
    site shoes site.
Proof.
  intros Hcat Hreach. exists {| exactMatch := Some shoes; suggestions := [] |}.
  split; [|reflexivity]. simpl. unfold lookupByName, listAll.
  rewrite Hreach, Hcat. reflexivity.
Qed.

Lemma update_patch_fields_witness :
  exists updatePayload : UpdatePayload,
    updatePayload !! "description" = None /\
    updatePayload !! "name" = None /\
    updatePayload !! "slug" = None /\
    updatePayload !! "_yoast_wpseo_title" = Some (JStr "New Title") /\
    updatePayload !! "_yoast_wpseo_metadesc" = None /\
    updatePayload !! "_yoast_wpseo_focuskw" = None /\
    (forall k : string,
       k ∉ ["description"; "name"; "slug"; "_yoast_wpseo_title";
            "_yoast_wpseo_metadesc"; "_yoast_wpseo_focuskw"] ->
       updatePayload !! k = None) /\
    (updatePayload <> ∅ ->
     exists (answer : outcome (option string)) (w2 : Site),
       @runAction Site example_client example_parse example_credentials
         (action_text "UPDATE_CATEGORY_METADATA" (Some retitle_shoes)) (shop, []) =
       (answer,
        (w2, [CallGetCategoryByName (JStr "Shoes");
              CallUpdateCategoryMetadata 1 updatePayload]))).
Proof.
  apply (@update_patch_fields Site example_client example_parse
           example_credentials
           (action_text "UPDATE_CATEGORY_METADATA" (Some retitle_shoes))
           (payload_fields retitle_shoes) (JStr "Shoes") shoes shop shop []).
  - apply example_decodes. vm_compute. reflexivity.
  - vm_compute. reflexivity.
  - reflexivity.
  - apply shoes_resolve_exactly; reflexivity.
Defined.

Lemma empty_patch_makes_no_update_witness :
  patch_of (payload_fields ask_shoes) = ∅ /\
  exists log' : list call,
    @runAction Site example_client example_parse example_credentials
      (action_text "UPDATE_CATEGORY_METADATA" (Some ask_shoes)) (shop, []) =
    (Returned (Some "Aucune modification à appliquer. Veuillez spécifier un champ à modifier."),
     (shop, log')) /\
    log' = [CallGetCategoryByName (JStr "Shoes")] /\
    update_calls log' = 0%nat.
Proof.
  assert (Hempty : patch_of (payload_fields ask_shoes) = ∅)
    by (vm_compute; reflexivity).
  split; [exact Hempty|].
  apply (@empty_patch_makes_no_update Site example_client example_parse
           example_credentials
           (action_text "UPDATE_CATEGORY_METADATA" (Some ask_shoes))
           (payload_fields ask_shoes) (JStr "Shoes") shoes shop shop []).
  - apply example_decodes. vm_compute. reflexivity.
  - vm_compute. reflexivity.
  - reflexivity.
  - apply shoes_resolve_exactly; reflexivity.
  - exact Hempty.
Defined.

Lemma update_error_is_caught_witness :
  @updateCategoryMetadata Site example_client example_credentials 1
    (patch_of (payload_fields retitle_shoes)) read_only_shop
  = (Thrown (ServiceError "UpdateError"), read_only_shop) /\
  exists log' : list call,
    @runAction Site example_client example_parse example_credentials
      (action_text "UPDATE_CATEGORY_METADATA" (Some retitle_shoes))
      (read_only_shop, []) =
    (Returned
       (Some ("Une erreur est survenue lors de la mise à jour de la catégorie "
               +:+ dq +:+ "Shoes" +:+ dq +:+ ".")),
     (read_only_shop, log')) /\
    log' = [CallGetCategoryByName (JStr "Shoes");
            CallUpdateCategoryMetadata 1 (patch_of (payload_fields retitle_shoes))] /\
    update_calls log' = 1%nat.
Proof.
  assert (Hreject :
            @updateCategoryMetadata Site example_client example_credentials 1
              (patch_of (payload_fields retitle_shoes)) read_only_shop
            = (Thrown (ServiceError "UpdateError"), read_only_shop))
    by (vm_compute; reflexivity).
  split; [exact Hreject|].
  apply (@update_error_is_caught Site example_client example_parse
           example_credentials
           (action_text "UPDATE_CATEGORY_METADATA" (Some retitle_shoes))
           (payload_fields retitle_shoes) (JStr "Shoes") "Shoes" shoes
           read_only_shop read_only_shop read_only_shop []
           (ServiceError "UpdateError")).
  - apply example_decodes. vm_compute. reflexivity.
  - vm_compute. reflexivity.
  - reflexivity.
  - reflexivity.
  - apply shoes_resolve_exactly; reflexivity.
  - vm_compute. discriminate.
  - exact Hreject.
Defined.

Lemma list_of_empty_catalog_witness :
  @getCategories Site example_client example_credentials empty_shop
  = (Returned [], empty_shop) /\
  @runAction Site example_client example_parse example_credentials
    (action_text "LIST_CATEGORIES" None) (empty_shop, []) =
  (Returned
     (Some ("Voici les catégories de produits trouvées : " +:+ nl +:+ nl +:+ " - ")),
   (empty_shop, [CallGetCategories])).
Proof.
  split; [reflexivity|].
  apply (@list_of_empty_catalog Site example_client example_parse
           example_credentials (action_text "LIST_CATEGORIES" None)
           (action_object "LIST_CATEGORIES" None) empty_shop empty_shop []).
  - split; vm_compute; reflexivity.
  - reflexivity.
Defined.

Lemma copy_action_does_nothing_witness :
  @resolves_exactly Site example_client example_credentials (JStr "Shoes")
    shop shoes shop /\
  @runAction Site example_client example_parse example_credentials
    (action_text "COPY_YOAST_META_DESC_TO_DESC" (Some ask_shoes)) (shop, []) =
  (Returned None, (shop, [])).
Proof.
  split; [apply shoes_resolve_exactly; reflexivity|].
  apply (@copy_action_does_nothing Site example_client example_parse
           example_credentials
           (action_text "COPY_YOAST_META_DESC_TO_DESC" (Some ask_shoes))
           (payload_fields ask_shoes) (shop, [])).
  apply example_decodes. vm_compute. reflexivity.
Defined.

Lemma sandals_resolve_exactly :
  @resolves_exactly Site example_client example_credentials (JStr "Sandals")
    shop sandals shop.
Proof.
  exists {| exactMatch := Some sandals; suggestions := [] |}.
  split; vm_compute; reflexivity.
Qed.


Lemma metadata_blank_as_absent_witness :
  seo_title sandals = Some EmptyString /\
  seo_title shoes = None /\
  (exists description slug yoastTitle yoastDesc yoastFocusKw : string,
     @runAction Site example_client example_parse example_credentials
       (action_text "GET_CATEGORY_METADATA" (Some ask_sandals)) (shop, []) =
     (Returned
        (Some ("Voici les métadonnées pour " +:+ dq +:+ "Sandals" +:+ dq
              +:+ ":" +:+ nl +:+ nl
              +:+ "- Description: " +:+ description +:+ nl
              +:+ "- Slug: " +:+ slug +:+ nl
              +:+ "- Titre SEO (Yoast): " +:+ yoastTitle +:+ nl
              +:+ "- Méta Description (Yoast): " +:+ yoastDesc +:+ nl
              +:+ "- Expression-clé principale (Yoast): " +:+ yoastFocusKw)),
      (shop, [CallGetCategoryByName (JStr "Sandals")])) /\
     (WPCategory.description sandals = EmptyString ->
      description = "Non définie") /\
     (WPCategory.slug sandals = EmptyString -> slug = "Non défini") /\
     (seo_title sandals = None \/ seo_title sandals = Some EmptyString ->
      yoastTitle = "Non défini") /\
     (seo_description sandals = None \/
      seo_description sandals = Some EmptyString ->
      yoastDesc = "Non définie") /\
     (WPCategory._yoast_wpseo_focuskw sandals = None \/
      WPCategory._yoast_wpseo_focuskw sandals = Some EmptyString ->
      yoastFocusKw = "Non définie")).
Proof.
  split; [reflexivity|]. split; [reflexivity|].
  apply (@metadata_blank_as_absent Site example_client example_parse
           example_credentials
           (action_text "GET_CATEGORY_METADATA" (Some ask_sandals))
           (payload_fields ask_sandals) (JStr "Sandals") sandals shop shop []).
  - apply example_decodes. vm_compute. reflexivity.
  - vm_compute. reflexivity.
  - reflexivity.
  - exact sandals_resolve_exactly.
Defined.

Lemma undecodable_reply_is_shown_verbatim_witness :
  example_parse (action_text "DELETE_CATEGORY" (Some ask_shoes))
  = Some (action_value "DELETE_CATEGORY" (Some ask_shoes)) /\
  recognised (action_value "DELETE_CATEGORY" (Some ask_shoes)) = false /\
  @respond Site example_client example_parse example_credentials
    (action_text "DELETE_CATEGORY" (Some ask_shoes)) (shop, []) =
  (Shown (action_text "DELETE_CATEGORY" (Some ask_shoes)), (shop, [])).
Proof.
  split; [vm_compute; reflexivity|]. split; [vm_compute; reflexivity|].
  apply (@undecodable_reply_is_shown_verbatim Site example_client example_parse
           example_credentials (action_text "DELETE_CATEGORY" (Some ask_shoes))
           (shop, [])).
  intros v Hparse. vm_compute in Hparse. injection Hparse as <-.
  vm_compute. reflexivity.
Defined.

Lemma resolve_exact_match_witness :
  exists (c0 : WPCategory.t) (before after : list WPCategory.t),
    [shoes; ete] = (before ++ c0 :: after)%list /\
    fold_case (WPCategory.name c0) = fold_case "été" /\
    (forall b : WPCategory.t,
       In b before -> fold_case (WPCategory.name b) <> fold_case "été") /\
    resolve fold_case containment 1 5 [shoes; ete] "été" = ExactMatch c0 /\
    (forall (wpCredentials : Credentials) (site : Site),
       catalog site = [shoes; ete] -> reachable site = true ->
       @getCategoryByName Site (DirectoryClient fold_case containment 1 5)
         wpCredentials (JStr "été") site =
       (Returned {| exactMatch := Some c0; suggestions := [] |}, site)).
Proof.
  apply (resolve_exact_match fold_case containment 1 5 [shoes; ete] "été").
  exists ete. split; [simpl; tauto | vm_compute; reflexivity].
Defined.

Lemma shop_names_unique (payload : list (string * string)) :
  payload_fields payload !! "categoryName" = Some (JStr "Shoes") ->
  name_is_unique fold_case (payload_fields payload) shop.
Proof.
  intros Hname q c d Hq Hc Hd Hcq Hdq.
  rewrite Hname in Hq. injection Hq as <-.
  simpl in Hc, Hd.
  destruct Hc as [<-|[<-|[<-|[]]]]; destruct Hd as [<-|[<-|[<-|[]]]];
    vm_compute in Hcq, Hdq; first [reflexivity | discriminate].
Qed.

Lemma update_twice_same_state_witness :
  let retitle := action_text "UPDATE_CATEGORY_METADATA" (Some retitle_shoes) in
  let rename := action_text "UPDATE_CATEGORY_METADATA" (Some rename_shoes) in
  let run :=
    @runAction Site example_client example_parse example_credentials in
  let retitled := run retitle (shop, []) in
  let renamed := run rename (shop, []) in
  let twin := run rename (twin_shop, []) in
  (retitled.2.1 <> shop /\
   (run retitle retitled.2).2.1 = retitled.2.1 /\
   exists log2 : list call,
     run retitle retitled.2 =
     (Returned
        (Some ("La catégorie " +:+ dq +:+ "Shoes" +:+ dq
               +:+ " a été mise à jour avec succès.")),
      (retitled.2.1, log2))) /\
  (renamed.2.1 <> shop /\ (run rename renamed.2).2.1 = renamed.2.1) /\
  (run rename twin.2).1 =
  Returned
    (Some ("La catégorie " +:+ dq +:+ "Boots" +:+ dq
           +:+ " a été mise à jour avec succès.")).
Proof.
  intros retitle rename run retitled renamed twin.
  assert (Hkeep : keeps_name fold_case (payload_fields retitle_shoes))
    by (left; vm_compute; reflexivity).
  destruct (update_twice_same_state fold_case containment 1 5 example_parse
              example_credentials retitle (payload_fields retitle_shoes)
              "Shoes" shop [] retitled.2.1 retitled.2.2)
    as (Hstate & _ & Hmessage).
  { apply example_decodes. vm_compute. reflexivity. }
  { vm_compute. reflexivity. }
  destruct (update_twice_same_state fold_case containment 1 5 example_parse
              example_credentials rename (payload_fields rename_shoes)
              "Boots" shop [] renamed.2.1 renamed.2.2)
    as (Hstate' & _ & _).
  { apply example_decodes. vm_compute. reflexivity. }
  { vm_compute. reflexivity. }
  destruct (update_twice_same_state fold_case containment 1 5 example_parse
              example_credentials rename (payload_fields rename_shoes)
              "Boots" twin_shop [] twin.2.1 twin.2.2)
    as (_ & Hnamed & _).
  { apply example_decodes. vm_compute. reflexivity. }
  { vm_compute. reflexivity. }
  split; [split; [vm_compute; discriminate | split]|split; [split|]].
  - replace retitled.2 with (retitled.2.1, retitled.2.2)
      by (vm_compute; reflexivity).
    apply Hstate. left. exact Hkeep.
  - replace retitled.2 with (retitled.2.1, retitled.2.2)
      by (vm_compute; reflexivity).
    apply Hmessage. exact Hkeep.
  - vm_compute. discriminate.
  - replace renamed.2 with (renamed.2.1, renamed.2.2)
      by (vm_compute; reflexivity).
    apply Hstate'. right. apply shop_names_unique. vm_compute. reflexivity.
  - replace twin.2 with (twin.2.1, twin.2.2) by (vm_compute; reflexivity).
    apply Hnamed. exists "Shoes", (plain_category 5 "Shoes" "shoes-2").
    split; [vm_compute; reflexivity|].
    split; [vm_compute; tauto | vm_compute; reflexivity].
Defined.

(** C9, as stated, fails on both counts.  An update that renames Shoes to
    Boots succeeds once; issued again on the resulting shop, it no longer
    finds Shoes and does not end with a success message.  On a shop with
    two categories named Shoes the same update succeeds twice, with the
    same message, and the second run renames the other category: the
    categories after the second run are not those after the first. *)
Lemma update_rename_twice_differs :
  let text := action_text "UPDATE_CATEGORY_METADATA" (Some rename_shoes) in
  let run :=
    @runAction Site example_client example_parse example_credentials text in
  let success :=
    Returned
      (Some ("La catégorie " +:+ dq +:+ "Boots" +:+ dq
             +:+ " a été mise à jour avec succès.")) in
  ((run (shop, [])).1 = success /\
   ~ exists (shown : string) (s2 : Site * list call),
       run (run (shop, [])).2 =
       (Returned
          (Some ("La catégorie " +:+ dq +:+ shown +:+ dq
                 +:+ " a été mise à jour avec succès.")), s2)) /\
  ((run (twin_shop, [])).1 = success /\
   (run (run (twin_shop, [])).2).1 = success /\
   (run (run (twin_shop, [])).2).2.1 <> (run (twin_shop, [])).2.1).
Proof.
  intros text run success. split; split.
  - vm_compute. reflexivity.
  - intros (shown & s2 & Hrun). vm_compute in Hrun. discriminate Hrun.
  - vm_compute. reflexivity.
  - split; [vm_compute; reflexivity | vm_compute; discriminate].
Qed.

(** ** The scenarios of the specification, evaluated *)

(** A payload with only [metaTitle] yields a patch with only the SEO-title
    key. *)
Example patch_of_retitle :
  patch_of (payload_fields retitle_shoes)
  = {["_yoast_wpseo_title" := JStr "New Title"]}.
Proof. vm_compute. reflexivity. Qed.

(** A payload with an empty [description] yields a patch that overwrites
    the description with the empty string. *)
Example patch_of_blank_description :
  patch_of (payload_fields blank_shoes)
  = {["description" := JStr EmptyString]}.
Proof. vm_compute. reflexivity. Qed.

(** A payload with an empty [name] yields a patch without [name]. *)
Example patch_of_blank_name :
  patch_of (payload_fields [("categoryName", "Shoes"); ("name", EmptyString)]) = ∅.
Proof. vm_compute. reflexivity. Qed.

(** The query Shoe has no exact match; Shoes is suggested. *)
Example resolve_shoe :
  resolve fold_case containment 1 5 [shoes; shirts] "Shoe" = Suggestions [shoes].
Proof. vm_compute. reflexivity. Qed.

(** Text that is not JSON is shown as it is. *)
Example chat_is_shown :
  @respond Site example_client example_parse example_credentials
    "Bonjour, que puis-je faire pour vous ?" (shop, []) =
  (Shown "Bonjour, que puis-je faire pour vous ?", (shop, [])).
Proof. vm_compute. reflexivity. Qed.

(** A non-empty catalog is listed one bullet per category. *)
Example list_of_shop :
  (@runAction Site example_client example_parse example_credentials
     (action_text "LIST_CATEGORIES" None) (shop, [])).1 =
  Returned
    (Some ("Voici les catégories de produits trouvées : " +:+ nl +:+ nl
           +:+ " - Shoes" +:+ nl +:+ " - Shirts" +:+ nl +:+ " - Sandals")).
Proof. vm_compute. reflexivity. Qed.

(** The second run of the renaming update: Shoes is no longer found. *)
Example rename_second_run :
  let text := action_text "UPDATE_CATEGORY_METADATA" (Some rename_shoes) in
  let first :=
    @runAction Site example_client example_parse example_credentials text
      (shop, []) in
  (@runAction Site example_client example_parse example_credentials text
     first.2).1 =
  Returned
    (Some ("Désolé, je n'ai pas trouvé de catégorie nommée " +:+ dq +:+ "Shoes"
           +:+ dq +:+ " à mettre à jour.")).
Proof. vm_compute. reflexivity. Qed.

(** * Further properties of the dispatcher *)

Section DispatcherCalls.
Context {W : Type} {backend : Backend W}.
Variable JSON_parse : string -> option json.
Variable wpCredentials : Credentials.

Ltac split_run :=
  repeat (match goal with
          | |- context [match ?x with _ => _ end] =>
              lazymatch x with
              | context [match _ with _ => _ end] => fail
              | _ => destruct x eqn:?
              end
          end; cbn beta iota zeta; cbn [fst snd]).

Ltac close_run :=
  unfold extends_by_run; cbn [fst snd];
  first
    [ exists []; split; [symmetry; apply app_nil_r | constructor]
    | eexists [_]; split; [reflexivity | constructor]
    | eexists [_; _]; split;
      [ by rewrite <- app_assoc
      | subst; eapply run_update; eauto;
        match goal with
        | H : (size ?p =? 0)%nat = false |- ?p <> _ =>
            intros Hempty; apply size_zero_iff in Hempty; congruence
        end ] ].

Lemma case_LIST_CATEGORIES_calls w log :
  extends_by_run wpCredentials w log (case_LIST_CATEGORIES wpCredentials (w, log)).
Proof.
  unfold case_LIST_CATEGORIES, bind, await_getCategories, ret.
  split_run; close_run.
Qed.

Lemma case_GET_CATEGORY_METADATA_calls parsedResponse w log :
  extends_by_run wpCredentials w log
    (case_GET_CATEGORY_METADATA wpCredentials parsedResponse (w, log)).
Proof.
  unfold case_GET_CATEGORY_METADATA, bind, lift, await_getCategoryByName,
    tpl, ret, throw.
  split_run; close_run.
Qed.

Lemma case_UPDATE_CATEGORY_METADATA_calls parsedResponse w log :
  extends_by_run wpCredentials w log
    (case_UPDATE_CATEGORY_METADATA wpCredentials parsedResponse (w, log)).
Proof.
  unfold case_UPDATE_CATEGORY_METADATA, bind, lift, try_catch,
    await_getCategoryByName, await_updateCategoryMetadata, tpl, ret, throw.
  split_run; close_run.
Qed.

Lemma case_COPY_YOAST_META_DESC_TO_DESC_calls parsedResponse w log :
  extends_by_run wpCredentials w log
    (case_COPY_YOAST_META_DESC_TO_DESC wpCredentials parsedResponse (w, log)).
Proof.
  unfold case_COPY_YOAST_META_DESC_TO_DESC, bind, lift, ret.
  split_run; close_run.
Qed.

(** Whatever the text of the model, the dispatcher either stops before the
    [switch], leaving state and log as they are, or runs one of the four
    branches on the decoded object. *)
Lemma runAction_branches aiResponseText s :
  (exists out : outcome (option string),
     runAction JSON_parse wpCredentials aiResponseText s = (out, s)) \/
  (exists (tag : string) (top : gmap string json),
     announces JSON_parse aiResponseText tag top /\
     ((tag = "LIST_CATEGORIES" /\
       runAction JSON_parse wpCredentials aiResponseText s =
       case_LIST_CATEGORIES wpCredentials s) \/
      (tag = "GET_CATEGORY_METADATA" /\
       runAction JSON_parse wpCredentials aiResponseText s =
       case_GET_CATEGORY_METADATA wpCredentials (JObj top) s) \/
      (tag = "UPDATE_CATEGORY_METADATA" /\
       runAction JSON_parse wpCredentials aiResponseText s =
       case_UPDATE_CATEGORY_METADATA wpCredentials (JObj top) s) \/
      (tag = "COPY_YOAST_META_DESC_TO_DESC" /\
       runAction JSON_parse wpCredentials aiResponseText s =
       case_COPY_YOAST_META_DESC_TO_DESC wpCredentials (JObj top) s))).
Proof.
  unfold runAction, bind, lift.
  destruct (JSON_parse aiResponseText) as [v|] eqn:Hparse; [|left; eauto].
  destruct v as [| | | | |top]; cbn [get_prop]; try (left; eauto; fail).
  destruct (top !! "action") as [[| |n|tag| |]|] eqn:Haction;
    cbn [truthy_opt truthy];
    try (left; repeat match goal with
                      | |- context [if ?b then _ else _] => destruct b
                      end; eauto; fail).
  destruct (negb (tag =? EmptyString)); [|left; eauto].
  destruct (String.eqb_spec tag "LIST_CATEGORIES") as [->|_];
    [right; exists "LIST_CATEGORIES", top; split; [split; auto|]; auto|].
  destruct (String.eqb_spec tag "GET_CATEGORY_METADATA") as [->|_];
    [right; exists "GET_CATEGORY_METADATA", top; split; [split; auto|]; auto|].
  destruct (String.eqb_spec tag "UPDATE_CATEGORY_METADATA") as [->|_];
    [right; exists "UPDATE_CATEGORY_METADATA", top; split; [split; auto|];
     auto|].
  destruct (String.eqb_spec tag "COPY_YOAST_META_DESC_TO_DESC") as [->|_];
    [right; exists "COPY_YOAST_META_DESC_TO_DESC", top; split; [split; auto|];
     auto 6|].
  left. eauto.
Qed.

(** X1. One run of the dispatcher, on any text of the model and against
    any services, adds to the call log nothing, one listing, one name
    resolution, or one name resolution followed by one update; an update is
    only ever sent for the category the resolution returned as exact match,
    with a non-empty patch. *)
Theorem runAction_calls aiResponseText w log :
  exists added : list call,
    (runAction JSON_parse wpCredentials aiResponseText (w, log)).2.2
    = (log ++ added)%list /\
    run_calls wpCredentials w added.
Proof.
  destruct (runAction_branches aiResponseText (w, log))
    as [[out ->] | (tag & top & _ & [[_ ->] | [[_ ->] | [[_ ->] | [_ ->]]]])].
  - exists []. split; [symmetry; apply app_nil_r | constructor].
  - apply case_LIST_CATEGORIES_calls.
  - apply case_GET_CATEGORY_METADATA_calls.
  - apply case_UPDATE_CATEGORY_METADATA_calls.
  - apply case_COPY_YOAST_META_DESC_TO_DESC_calls.
Qed.

Lemma run_calls_counts w added :
  run_calls wpCredentials w added ->
  (length added <= 2)%nat /\ (update_calls added <= 1)%nat.
Proof. intros []; unfold update_calls; simpl; lia. Qed.

(** X2. No text of the model makes the dispatcher call the services more
    than twice, or the update service more than once: nothing is retried. *)
Theorem runAction_updates_at_most_once aiResponseText w log :
  let log' := (runAction JSON_parse wpCredentials aiResponseText (w, log)).2.2 in
  (length log' <= length log + 2)%nat /\
  (update_calls log <= update_calls log' <= update_calls log + 1)%nat.
Proof.
  destruct (runAction_calls aiResponseText w log) as (added & Hlog & Hshape).
  cbn zeta. rewrite Hlog, length_app, update_calls_app.
  apply run_calls_counts in Hshape. lia.
Qed.

Lemma read_only_branch_calls (log : list call) {A : Type}
    (result : outcome A * (W * list call)) :
  (exists added : list call,
     result.2.2 = (log ++ added)%list /\
     (added = [] \/ added = [CallGetCategories] \/
      exists categoryName : json, added = [CallGetCategoryByName categoryName])) ->
  update_calls result.2.2 = update_calls log.
Proof.
  intros (added & -> & Hadded). rewrite update_calls_app.
  destruct Hadded as [-> | [-> | [cn ->]]]; unfold update_calls; simpl; lia.
Qed.

(** X3. Only the UpdateCategoryMetadata action ever reaches the update
    service: when the text of the model does not decode to an object whose
    action is UPDATE_CATEGORY_METADATA, the run makes no update call. *)
Theorem only_update_action_updates aiResponseText w log :
  (forall top : gmap string json,
     ~ announces JSON_parse aiResponseText "UPDATE_CATEGORY_METADATA" top) ->
  update_calls
    (runAction JSON_parse wpCredentials aiResponseText (w, log)).2.2
  = update_calls log.
Proof.
  intros Hnot.
  destruct (runAction_branches aiResponseText (w, log))
    as [[out ->] | (tag & top & Hann
                    & [[_ ->] | [[_ ->] | [[-> _] | [_ ->]]]])].
  - reflexivity.
  - apply read_only_branch_calls.
    unfold case_LIST_CATEGORIES, bind, await_getCategories, ret.
    split_run; cbn [fst snd];
      first [ exists []; split; [symmetry; apply app_nil_r | auto]
            | eexists [_]; split; [reflexivity | eauto] ].
  - apply read_only_branch_calls.
    unfold case_GET_CATEGORY_METADATA, bind, lift, await_getCategoryByName,
      tpl, ret, throw.
    split_run; cbn [fst snd];
      first [ exists []; split; [symmetry; apply app_nil_r | auto]
            | eexists [_]; split; [reflexivity | eauto] ].
  - destruct (Hnot top Hann).
  - apply read_only_branch_calls.
    unfold case_COPY_YOAST_META_DESC_TO_DESC, bind, lift, ret.
    split_run; cbn [fst snd];
      (exists []; split; [symmetry; apply app_nil_r | auto]).
Qed.

End DispatcherCalls.

Section DispatcherBranches.
Context {W : Type} {backend : Backend W}.
Variable JSON_parse : string -> option json.
Variable wpCredentials : Credentials.

(** X4. A GetCategoryMetadata action whose payload has no [categoryName],
    or a falsy one (empty string, null, 0, false), is answered by the
    request to name a category; no service is called and the site is left
    as it was. *)
Theorem get_without_name_asks aiResponseText fields s :
  decodes_to JSON_parse aiResponseText "GET_CATEGORY_METADATA" fields ->
  truthy_opt (fields !! "categoryName") = false ->
  runAction JSON_parse wpCredentials aiResponseText s =
  (Returned (Some "Veuillez spécifier un nom de catégorie."), s).
Proof.
  intros (top & Hann & Hpayload) Hfalsy.
  rewrite (run_announced _ _ _ _ _ _ Hann) by done. simpl.
  unfold case_GET_CATEGORY_METADATA, bind, lift. cbn [get_prop].
  rewrite Hpayload. cbn [get_prop].
  destruct (fields !! "categoryName") as [cn|]; [|reflexivity].
  simpl in Hfalsy. rewrite Hfalsy. reflexivity.
Qed.

(** X5. An UpdateCategoryMetadata action whose payload has no
    [categoryName], or a falsy one, is answered by the request to name the
    category to update, whatever fields it carries; no service is called
    and the site is left as it was. *)
Theorem update_without_name_asks aiResponseText fields s :
  decodes_to JSON_parse aiResponseText "UPDATE_CATEGORY_METADATA" fields ->
  truthy_opt (fields !! "categoryName") = false ->
  runAction JSON_parse wpCredentials aiResponseText s =
  (Returned (Some "Veuillez spécifier un nom de catégorie à mettre à jour."), s).
Proof.
  intros (top & Hann & Hpayload) Hfalsy.
  rewrite (run_announced _ _ _ _ _ _ Hann) by done. simpl.
  unfold case_UPDATE_CATEGORY_METADATA, bind, lift. cbn [get_prop].
  rewrite Hpayload. cbn [get_prop].
  destruct (fields !! "categoryName") as [cn|]; [|reflexivity].
  simpl in Hfalsy. rewrite Hfalsy. reflexivity.
Qed.

Lemma append_empty_r (s : string) : s +:+ EmptyString = s.
Proof.
  induction s as [|c s IH]; [reflexivity|].
  change (String c (s +:+ EmptyString) = String c s). by rewrite IH.
Qed.

Lemma append_assoc (a b c : string) : (a +:+ b) +:+ c = a +:+ (b +:+ c).
Proof.
  induction a as [|x a IH]; [reflexivity|].
  change (String x ((a +:+ b) +:+ c) = String x (a +:+ b +:+ c)).
  by rewrite IH.
Qed.

Lemma concat_bullets (sep first : string) (rest : list string) :
  String.concat sep (first :: rest)
  = first +:+ String.concat EmptyString (map (fun d => sep +:+ d) rest).
Proof.
  revert first. induction rest as [|d rest IH]; intros first.
  - change (first = first +:+ EmptyString). by rewrite append_empty_r.
  - change (String.concat sep (first :: d :: rest))
      with (first +:+ sep +:+ String.concat sep (d :: rest)).
    rewrite IH. f_equal. destruct rest as [|d' rest].
    + change (sep +:+ d +:+ EmptyString = sep +:+ d).
      by rewrite append_empty_r.
    + set (tail := String.concat EmptyString
                     (map (fun d => sep +:+ d) (d' :: rest))).
      change (sep +:+ d +:+ tail = (sep +:+ d) +:+ tail).
      by rewrite append_assoc.
Qed.

(** The list of lines 150 and 191, one quoted name after the other, each
    further one on a bullet line of its own. *)
Lemma suggestionList_bullets (first : WPCategory.t) (rest : list WPCategory.t) :
  suggestionList (first :: rest)
  = dq +:+ WPCategory.name first +:+ dq
    +:+ String.concat EmptyString
          (map (fun c => nl +:+ " - " +:+ dq +:+ WPCategory.name c +:+ dq) rest).
Proof.
  unfold suggestionList. cbn [map].
  rewrite concat_bullets, map_map, !append_assoc. reflexivity.
Qed.

(** X6. When the name of a GetCategoryMetadata action has no exact match,
    the reply quotes the name as asked: with suggestions it says that no
    exact match was found and asks which of them was meant, the first
    suggested name quoted after a bullet and every further one quoted on a
    bullet line of its own, in the order received; without any it says
    that no category of that name or close to it was found.  Only the name
    resolution is called. *)
Theorem get_without_exact_match aiResponseText fields categoryName shown found
    w w1 log :
  decodes_to JSON_parse aiResponseText "GET_CATEGORY_METADATA" fields ->
  fields !! "categoryName" = Some categoryName ->
  truthy categoryName = true ->
  ToString categoryName = Some shown ->
  getCategoryByName wpCredentials categoryName w = (Returned found, w1) ->
  exactMatch found = None ->
  runAction JSON_parse wpCredentials aiResponseText (w, log) =
  (Returned
     (Some (match suggestions found with
            | [] =>
                "Désolé, je n'ai pas trouvé de catégorie nommée "
                +:+ dq +:+ shown +:+ dq +:+ " ou s'en approchant."
            | first :: rest =>
                "Je n'ai pas trouvé de correspondance exacte pour "
                +:+ dq +:+ shown +:+ dq +:+ "." +:+ nl +:+ nl
                +:+ "Vouliez-vous dire l'une de ces catégories ?" +:+ nl
                +:+ " - " +:+ dq +:+ WPCategory.name first +:+ dq
                +:+ String.concat EmptyString
                      (map (fun c =>
                              nl +:+ " - " +:+ dq +:+ WPCategory.name c +:+ dq)
                         rest)
            end)),
   (w1, (log ++ [CallGetCategoryByName categoryName])%list)).
Proof.
  intros (top & Hann & Hpayload) Hname Htruthy Hshown Hfound Hexact.
  rewrite (run_announced _ _ _ _ _ _ Hann) by done. simpl.
  unfold case_GET_CATEGORY_METADATA, bind, lift. cbn [get_prop].
  rewrite Hpayload. cbn [get_prop]. rewrite Hname, Htruthy. simpl.
  unfold await_getCategoryByName. rewrite Hfound, Hexact.
  unfold tpl, ToString_opt. rewrite Hshown.
  destruct (suggestions found) as [|first rest]; [reflexivity|].
  rewrite suggestionList_bullets. reflexivity.
Qed.

(** X7. When the name of an UpdateCategoryMetadata action has no exact
    match, nothing is updated, whatever fields the payload carries: the
    update service is not called.  With suggestions the reply says that no
    exact match was found to update and asks which of them was meant, the
    first suggested name quoted after a bullet and every further one quoted
    on a bullet line of its own; without any it says that no category of
    that name was found to update. *)
Theorem update_without_exact_match aiResponseText fields categoryName shown found
    w w1 log :
  decodes_to JSON_parse aiResponseText "UPDATE_CATEGORY_METADATA" fields ->
  fields !! "categoryName" = Some categoryName ->
  truthy categoryName = true ->
  ToString categoryName = Some shown ->
  getCategoryByName wpCredentials categoryName w = (Returned found, w1) ->
  exactMatch found = None ->
  exists log' : list call,
    runAction JSON_parse wpCredentials aiResponseText (w, log) =
    (Returned
       (Some (match suggestions found with
              | [] =>
                  "Désolé, je n'ai pas trouvé de catégorie nommée "
                  +:+ dq +:+ shown +:+ dq +:+ " à mettre à jour."
              | first :: rest =>
                  "Je n'ai pas trouvé de correspondance exacte pour "
                  +:+ dq +:+ shown +:+ dq +:+ " à mettre à jour."
                  +:+ nl +:+ nl
                  +:+ "Vouliez-vous dire l'une de ces catégories ?" +:+ nl
                  +:+ " - " +:+ dq +:+ WPCategory.name first +:+ dq
                  +:+ String.concat EmptyString
                        (map (fun c =>
                                nl +:+ " - " +:+ dq +:+ WPCategory.name c +:+ dq)
                           rest)
              end)),
     (w1, log')) /\
    log' = (log ++ [CallGetCategoryByName categoryName])%list /\
    update_calls log' = update_calls log.
Proof.
  intros (top & Hann & Hpayload) Hname Htruthy Hshown Hfound Hexact.
  eexists. split; [|split; [reflexivity|]].
  - rewrite (run_announced _ _ _ _ _ _ Hann) by done. simpl.
    unfold case_UPDATE_CATEGORY_METADATA, bind, lift. cbn [get_prop].
    rewrite Hpayload. cbn [get_prop]. rewrite Hname, Htruthy. simpl.
    unfold await_getCategoryByName. rewrite Hfound, Hexact.
    unfold tpl, ToString_opt. rewrite Hshown.
    destruct (suggestions found) as [|first rest]; [reflexivity|].
    rewrite suggestionList_bullets. reflexivity.
  - rewrite update_calls_app. unfold update_calls. simpl. lia.
Qed.

(** X8. A successful update is confirmed under the new name when the
    payload renames the category (a truthy [name]), and under the name it
    was asked for otherwise; the site is left as the update service left
    it, after exactly one update call. *)
Theorem update_success_names_category aiResponseText fields categoryName category
    w w1 w2 log u :
  decodes_to JSON_parse aiResponseText "UPDATE_CATEGORY_METADATA" fields ->
  fields !! "categoryName" = Some categoryName ->
  truthy categoryName = true ->
  resolves_exactly wpCredentials categoryName w category w1 ->
  patch_of fields <> ∅ ->
  updateCategoryMetadata wpCredentials (WPCategory.id category)
    (patch_of fields) w1 = (Returned u, w2) ->
  forall shown : string,
    ToString (if truthy_opt (fields !! "name")
              then default categoryName (fields !! "name")
              else categoryName) = Some shown ->
    runAction JSON_parse wpCredentials aiResponseText (w, log) =
    (Returned
       (Some ("La catégorie " +:+ dq +:+ shown +:+ dq
              +:+ " a été mise à jour avec succès.")),
     (w2, (log ++ [CallGetCategoryByName categoryName;
                   CallUpdateCategoryMetadata (WPCategory.id category)
                     (patch_of fields)])%list)).
Proof.
  intros Hdec Hname Htruthy Hexact Hnonempty Hupd shown Hshown.
  rewrite (run_update_exact _ _ _ _ _ _ _ _ _ Hdec Hname Htruthy Hexact).
  destruct (size (patch_of fields) =? 0)%nat eqn:Hsize.
  { apply size_zero_iff in Hsize. contradiction. }
  rewrite Hupd. unfold after_update, js_or, ToString_opt.
  destruct (fields !! "name") as [n|]; simpl in *.
  - destruct (truthy n); simpl; rewrite Hshown; reflexivity.
  - rewrite Hshown. reflexivity.
Qed.

(** X9. A rejection of the name resolution is not caught by the branch:
    for GetCategoryMetadata and for UpdateCategoryMetadata alike the
    dispatcher raises the same error, without a response and without an
    update call. *)
Theorem resolution_rejection_propagates aiResponseText tag fields categoryName
    w w1 log e :
  tag = "GET_CATEGORY_METADATA" \/ tag = "UPDATE_CATEGORY_METADATA" ->
  decodes_to JSON_parse aiResponseText tag fields ->
  fields !! "categoryName" = Some categoryName ->
  truthy categoryName = true ->
  getCategoryByName wpCredentials categoryName w = (Thrown e, w1) ->
  runAction JSON_parse wpCredentials aiResponseText (w, log) =
  (Thrown e, (w1, (log ++ [CallGetCategoryByName categoryName])%list)).
Proof.
  intros Htag (top & Hann & Hpayload) Hname Htruthy Hreject.
  destruct Htag as [-> | ->];
    rewrite (run_announced _ _ _ _ _ _ Hann) by done; simpl.
  - unfold case_GET_CATEGORY_METADATA, bind, lift. cbn [get_prop].
    rewrite Hpayload. cbn [get_prop]. rewrite Hname, Htruthy. simpl.
    unfold await_getCategoryByName. rewrite Hreject. reflexivity.
  - unfold case_UPDATE_CATEGORY_METADATA, bind, lift. cbn [get_prop].
    rewrite Hpayload. cbn [get_prop]. rewrite Hname, Htruthy. simpl.
    unfold await_getCategoryByName. rewrite Hreject. reflexivity.
Qed.

(** X10. A rejection of the listing service is not caught by the
    ListCategories branch: the dispatcher raises the same error and builds
    no response. *)
Theorem listing_rejection_propagates aiResponseText top w w1 log e :
  announces JSON_parse aiResponseText "LIST_CATEGORIES" top ->
  getCategories wpCredentials w = (Thrown e, w1) ->
  runAction JSON_parse wpCredentials aiResponseText (w, log) =
  (Thrown e, (w1, (log ++ [CallGetCategories])%list)).
Proof.
  intros Hann Hreject.
  rewrite (run_announced _ _ _ _ _ _ Hann) by done. simpl.
  unfold case_LIST_CATEGORIES, bind, await_getCategories.
  rewrite Hreject. reflexivity.
Qed.

(** X11. An action that needs a payload but comes without one, or with a
    null one, raises TypeError inside the dispatcher before any service is
    called. *)
Theorem missing_payload_raises aiResponseText tag top s :
  tag = "GET_CATEGORY_METADATA" \/ tag = "UPDATE_CATEGORY_METADATA" \/
  tag = "COPY_YOAST_META_DESC_TO_DESC" ->
  announces JSON_parse aiResponseText tag top ->
  top !! "payload" = None \/ top !! "payload" = Some JNull ->
  runAction JSON_parse wpCredentials aiResponseText s = (Thrown TypeError, s).
Proof.
  intros Htag Hann Hpayload.
  destruct Htag as [-> | [-> | ->]];
    rewrite (run_announced _ _ _ _ _ _ Hann) by done; simpl;
    unfold case_GET_CATEGORY_METADATA, case_UPDATE_CATEGORY_METADATA,
      case_COPY_YOAST_META_DESC_TO_DESC, bind, lift; cbn [get_prop];
    destruct Hpayload as [-> | ->]; reflexivity.
Qed.

Lemma assign_if_truthy_empty k v (o : UpdatePayload) :
  assign_if_truthy k v o = ∅ <-> when_truthy v = None /\ o = ∅.
Proof.
  unfold assign_if_truthy, when_truthy, truthy_opt.
  destruct v as [x|]; [destruct (truthy x)|]; split;
    try (intros [? ?]; done); try (intros ?; done).
  intros H. by apply insert_non_empty in H.
Qed.

(** The patch of an update is empty exactly when the payload has no
    [description] property at all and none of the five other fields is
    truthy. *)
Lemma patch_empty_iff (fields : gmap string json) :
  patch_of fields = ∅ <->
  fields !! "description" = None /\
  when_truthy (fields !! "name") = None /\
  when_truthy (fields !! "slug") = None /\
  when_truthy (fields !! "metaTitle") = None /\
  when_truthy (fields !! "metaDescription") = None /\
  when_truthy (fields !! "focusKeyphrase") = None.
Proof.
  unfold patch_of, buildUpdatePayload.
  rewrite !assign_if_truthy_empty. unfold assign_if_defined.
  destruct (fields !! "description") as [d|].
  - split; [intros (_ & _ & _ & _ & _ & H) | intros (H & _)]; [|done].
    by apply insert_non_empty in H.
  - tauto.
Qed.

(** X12. An UpdateCategoryMetadata action that resolves to an exact match
    is answered that there is no modification to apply exactly when the
    payload has no [description] property at all and none of [name],
    [slug], [metaTitle], [metaDescription], [focusKeyphrase] is truthy; in
    every other case the update service is called. *)
Theorem nothing_to_change_iff aiResponseText fields categoryName category
    w w1 log :
  decodes_to JSON_parse aiResponseText "UPDATE_CATEGORY_METADATA" fields ->
  fields !! "categoryName" = Some categoryName ->
  truthy categoryName = true ->
  resolves_exactly wpCredentials categoryName w category w1 ->
  let result := runAction JSON_parse wpCredentials aiResponseText (w, log) in
  let nothing_asked :=
    fields !! "description" = None /\
    when_truthy (fields !! "name") = None /\
    when_truthy (fields !! "slug") = None /\
    when_truthy (fields !! "metaTitle") = None /\
    when_truthy (fields !! "metaDescription") = None /\
    when_truthy (fields !! "focusKeyphrase") = None in
  (result.1 =
   Returned
     (Some "Aucune modification à appliquer. Veuillez spécifier un champ à modifier.")
   <-> nothing_asked) /\
  (update_calls result.2.2 = update_calls log <-> nothing_asked).
Proof.
  intros Hdec Hname Htruthy Hexact result nothing_asked.
  unfold result, nothing_asked. rewrite <- patch_empty_iff.
  rewrite (run_update_exact _ _ _ _ _ _ _ _ _ Hdec Hname Htruthy Hexact).
  destruct (size (patch_of fields) =? 0)%nat eqn:Hsize.
  - apply size_zero_iff in Hsize. cbn [fst snd].
    rewrite update_calls_app. unfold update_calls at 2. simpl.
    split; split; intros _; (reflexivity || exact Hsize || lia).
  - assert (Hnonempty : patch_of fields <> ∅).
    { intros Hempty. apply size_zero_iff in Hempty. congruence. }
    destruct (updateCategoryMetadata _ _ _ _) as [answer w2]. cbn [fst snd].
    rewrite update_calls_app. unfold update_calls at 2. simpl.
    split; split; try (intros Hempty; contradiction); [|lia].
    intros Hreply. exfalso. unfold after_update in Hreply.
    destruct answer, (ToString categoryName),
      (ToString_opt (js_or (fields !! "name") (Some categoryName)));
      try discriminate Hreply;
      injection Hreply as Hreply; cbv in Hreply; discriminate Hreply.
Qed.

(** X13. The listing of a non-empty catalog shows every category on its
    own bullet line, in catalog order: the first name follows the header's
    bullet and each further name adds one line made of a bullet and the
    name. *)
Theorem list_one_bullet_per_category aiResponseText top first rest w w1 log :
  announces JSON_parse aiResponseText "LIST_CATEGORIES" top ->
  getCategories wpCredentials w = (Returned (first :: rest), w1) ->
  runAction JSON_parse wpCredentials aiResponseText (w, log) =
  (Returned
     (Some ("Voici les catégories de produits trouvées : " +:+ nl +:+ nl
            +:+ " - " +:+ WPCategory.name first
            +:+ String.concat EmptyString
                  (map (fun c => nl +:+ " - " +:+ WPCategory.name c) rest))),
   (w1, (log ++ [CallGetCategories])%list)).
Proof.
  intros Hann Hlist.
  rewrite (run_announced _ _ _ _ _ _ Hann) by done. simpl.
  unfold case_LIST_CATEGORIES, bind, await_getCategories.
  rewrite Hlist. unfold ret. do 3 f_equal.
  cbn [map]. rewrite concat_bullets, map_map.
  unfold list_header. rewrite !append_assoc. reflexivity.
Qed.

End DispatcherBranches.

(** * Properties of the theme and of the saved history *)

(** X14. Toggling always lands on light or dark; toggling twice gives the
    theme back exactly for these two, so a saved theme of another spelling
    is lost at the first toggle. *)
Theorem toggleTheme_twice (theme : string) :
  (toggleTheme theme = "light" \/ toggleTheme theme = "dark") /\
  (toggleTheme (toggleTheme theme) = theme <->
   theme = "light" \/ theme = "dark").
Proof.
  unfold toggleTheme.
  destruct (String.eqb_spec theme "light") as [->|Hlight].
  - split; [right; reflexivity|]. split; [auto | reflexivity].
  - split; [left; reflexivity|].
    change (("light" =? "light")%string) with true. cbn iota.
    split; [intros <-; auto | intros [->| ->]; [contradiction | reflexivity]].
Qed.

(** X15. After the theme effect, the document element carries the class
    dark exactly when the theme is dark, also when saving the theme
    raises; every other class is left as it was. *)
Theorem themeEffect_class (theme : string) (classList : gset string)
    (localStorage : Storage) :
  let classList' := (themeEffect theme classList localStorage).1 in
  ("dark" ∈ classList' <-> theme = "dark") /\
  (forall c : string, c <> "dark" -> c ∈ classList' <-> c ∈ classList).
Proof.
  unfold themeEffect. cbn [fst].
  destruct (String.eqb_spec theme "dark") as [->|Hne]; split;
    try (intros c Hc);
    rewrite ?elem_of_union, ?elem_of_difference, ?elem_of_singleton; tauto.
Qed.

(** X16. A theme saved by the effect is the theme the next start begins
    with, whatever the colour scheme the browser prefers. *)
Theorem theme_round_trip (theme : string) (classList : gset string)
    (localStorage localStorage' : Storage) (matchMedia : option bool) :
  (themeEffect theme classList localStorage).2 = Some localStorage' ->
  theme <> EmptyString ->
  initialTheme localStorage' matchMedia = theme.
Proof.
  unfold themeEffect, setItem, initialTheme, getItem. cbn [snd].
  destruct (accepts localStorage "theme" theme); [|discriminate].
  intros [= <-] Hne. cbn [items]. rewrite lookup_insert_eq.
  destruct (String.eqb_spec theme EmptyString); [contradiction | reflexivity].
Qed.

Section HistoryFacts.
Variable JSON_parse : string -> option json.
Variable JSON_stringify : list Message.t -> string.

(** X17. Saving the chat history never changes the saved theme, and
    saving the theme never changes the saved history: the two keys of
    [localStorage] do not interfere. *)
Theorem theme_and_history_independent (messages : list Message.t) (theme : string)
    (classList : gset string) (localStorage : Storage) (matchMedia : option bool) :
  initialTheme (saveHistory JSON_stringify messages localStorage) matchMedia
  = initialTheme localStorage matchMedia /\
  (forall localStorage' : Storage,
     (themeEffect theme classList localStorage).2 = Some localStorage' ->
     initialMessages JSON_parse localStorage'
     = initialMessages JSON_parse localStorage).
Proof.
  split.
  - unfold saveHistory, setItem, initialTheme, getItem.
    destruct (accepts localStorage "chatHistory" (JSON_stringify messages));
      [|reflexivity].
    cbn [items]. by rewrite lookup_insert_ne.
  - unfold themeEffect, setItem, initialMessages, getItem. cbn [snd].
    destruct (accepts localStorage "theme" theme); [|discriminate].
    intros ? [= <-]. cbn [items]. by rewrite lookup_insert_ne.
Qed.

(** X18. After the history effect the next start reads, when the storage
    accepted the write, the value [JSON.parse] makes of the text
    [JSON.stringify] wrote, and, when the storage refused it, the history
    saved before; the refusal raises nothing.  This holds provided
    [JSON.parse] decodes the written text and that text is not empty. *)
Theorem history_round_trip (messages : list Message.t) (localStorage : Storage)
    (parsed : json) :
  JSON_stringify messages <> EmptyString ->
  JSON_parse (JSON_stringify messages) = Some parsed ->
  initialMessages JSON_parse (saveHistory JSON_stringify messages localStorage)
  = if accepts localStorage "chatHistory" (JSON_stringify messages)
    then parsed
    else initialMessages JSON_parse localStorage.
Proof.
  intros Hne Hparse.
  unfold saveHistory, setItem.
  destruct (accepts localStorage "chatHistory" (JSON_stringify messages));
    [|reflexivity].
  unfold initialMessages, getItem. cbn [items]. rewrite lookup_insert_eq.
  destruct (String.eqb_spec (JSON_stringify messages) EmptyString);
    [contradiction|].
  by rewrite Hparse.
Qed.

End HistoryFacts.

(** * Properties of the handlers *)

Lemma lookup_own_controller (flags : list bool) (flag : bool) :
  (flags ++ [flag])%list !! length flags = Some flag.
Proof. rewrite lookup_app_r by lia. by rewrite Nat.sub_diag. Qed.

Section HandlerFacts.
Context {W : Type} {backend : Backend W}.
Variable JSON_parse : string -> option json.
Variable trim : string -> string.

Lemma begin_inv text now timestamp st st1 pending :
  handleSendMessage_begin trim text now timestamp st = (st1, Some pending) ->
  AppState.wpCredentials st = Some (credentials pending) /\
  trim text <> EmptyString /\
  controller pending = length (AppState.controllers st) /\
  AppState.controllers st1 = (AppState.controllers st ++ [false])%list /\
  AppState.abortControllerRef st1 = Some (controller pending) /\
  AppState.messages st1 =
  (AppState.messages st
   ++ [ {| Message.id := now; Message.text := text;
           Message.sender := Sender.User; Message.timestamp := timestamp |} ])%list /\
  AppState.wpCredentials st1 = AppState.wpCredentials st /\
  AppState.wpStatus st1 = AppState.wpStatus st.
Proof.
  unfold handleSendMessage_begin.
  destruct (AppState.wpCredentials st) as [creds|]; [|discriminate].
  destruct (String.eqb_spec (trim text) EmptyString) as [|Hne]; [discriminate|].
  intros [= <- <-]. cbn. auto 10.
Qed.

Lemma begin_none_inv text now timestamp st st1 :
  handleSendMessage_begin trim text now timestamp st = (st1, None) -> st1 = st.
Proof.
  unfold handleSendMessage_begin.
  destruct (AppState.wpCredentials st); [|by intros [= <-]].
  destruct (trim text =? EmptyString); [by intros [= <-] | discriminate].
Qed.

(** X19. Every handler keeps the state well formed: while the WordPress
    status is connected the credentials are stored, and the ref, when set,
    points to an existing controller that has not been aborted. *)
Theorem handlers_keep_well_formed (st : AppState.t) :
  well_formed st ->
  (forall creds validation now timestamp,
     well_formed (handleLogin creds validation now timestamp st)) /\
  well_formed (handleStopGeneration st) /\
  (forall text now timestamp,
     well_formed (handleSendMessage_begin trim text now timestamp st).1).
Proof.
  intros [Hcreds Href]. split; [|split].
  - intros creds validation now timestamp. split.
    + destruct validation as [[[] gm]|]; cbn; try discriminate; auto.
    + destruct validation as [[wp gm]|]; cbn; auto.
  - split; cbn; [auto | discriminate].
  - intros text now timestamp.
    destruct (handleSendMessage_begin trim text now timestamp st)
      as [st1 [pending|]] eqn:Hbegin; cbn [fst].
    + apply begin_inv in Hbegin
        as (_ & _ & Hc & Hflags & Href1 & _ & Hcreds1 & Hstatus1).
      split.
      * rewrite Hcreds1, Hstatus1. exact Hcreds.
      * intros c. rewrite Href1, Hflags, Hc. intros [= <-].
        apply lookup_own_controller.
    + apply begin_none_inv in Hbegin as ->. by split.
Qed.

(** X20. A message is ignored, with no change of state and nothing left
    pending, when its text is blank or when no credentials are stored; in
    particular every message is ignored after a login from a state without
    credentials whose WordPress validation failed or was rejected. *)
Theorem send_needs_text_and_credentials text now timestamp (st : AppState.t) :
  (trim text = EmptyString \/ AppState.wpCredentials st = None ->
   handleSendMessage_begin trim text now timestamp st = (st, None)) /\
  (forall creds validation now' timestamp',
     AppState.wpCredentials st = None ->
     (forall geminiSuccess : bool, validation <> Some (true, geminiSuccess)) ->
     let st' := handleLogin creds validation now' timestamp' st in
     handleSendMessage_begin trim text now timestamp st' = (st', None)).
Proof.
  split.
  - intros [Hblank | Hnone]; unfold handleSendMessage_begin.
    + rewrite Hblank. by destruct (AppState.wpCredentials st).
    + by rewrite Hnone.
  - intros creds validation now' timestamp' Hnone Hfail st'.
    unfold handleSendMessage_begin, st'.
    destruct validation as [[[] gm]|]; cbn; [|by rewrite Hnone..].
    by destruct (Hfail gm).
Qed.

(** X21. After a successful login, a message that is not blank is taken:
    it is appended as typed right after the welcome message, typing
    starts, and the call that is left pending holds the credentials of the
    login. *)
Theorem login_then_send creds now timestamp text now' timestamp' (st : AppState.t) :
  trim text <> EmptyString ->
  exists (st1 : AppState.t) (pending : Pending),
    handleSendMessage_begin trim text now' timestamp'
      (handleLogin creds (Some (true, true)) now timestamp st)
    = (st1, Some pending) /\
    credentials pending = creds /\
    AppState.isTyping st1 = true /\
    AppState.messages st1 =
    [ {| Message.id := now; Message.text := welcome_text;
         Message.sender := Sender.AI; Message.timestamp := timestamp |};
      {| Message.id := now'; Message.text := text;
         Message.sender := Sender.User; Message.timestamp := timestamp' |} ].
Proof.
  intros Hne. unfold handleSendMessage_begin. cbn.
  destruct (String.eqb_spec (trim text) EmptyString); [contradiction|].
  eexists _, _. split; [reflexivity|]. cbn. auto.
Qed.

(** X22. A reply of the model that arrives after the user stopped the
    generation is dropped on line 121: the dispatcher is not entered, no
    service is called and nothing is updated. *)
Theorem stop_then_reply text now timestamp (st st1 : AppState.t) pending
    aiResponseText (s : W * list call) :
  handleSendMessage_begin trim text now timestamp st = (st1, Some pending) ->
  handleSendMessage_resume JSON_parse pending aiResponseText
    (handleStopGeneration st1) s
  = (Returned Stopped, s).
Proof.
  intros Hbegin.
  apply begin_inv in Hbegin as (_ & _ & Hc & Hflags & Href & _).
  unfold handleSendMessage_resume, aborted, handleStopGeneration. cbn.
  rewrite Href, Hflags, Hc.
  rewrite list_lookup_insert_eq by (rewrite length_app; simpl; lia).
  reflexivity.
Qed.

(** X23. Stopping reaches only the most recent call: when a second message
    is sent before the reply to the first has arrived, a stop drops the
    reply to the second, while the reply to the first is still dispatched
    as if nothing had been stopped. *)
Theorem stop_reaches_only_last_call text1 now1 timestamp1 text2 now2 timestamp2
    (st st1 st2 : AppState.t) pending1 pending2 aiResponseText
    (s : W * list call) :
  handleSendMessage_begin trim text1 now1 timestamp1 st = (st1, Some pending1) ->
  handleSendMessage_begin trim text2 now2 timestamp2 st1 = (st2, Some pending2) ->
  handleSendMessage_resume JSON_parse pending2 aiResponseText
    (handleStopGeneration st2) s
  = (Returned Stopped, s) /\
  handleSendMessage_resume JSON_parse pending1 aiResponseText
    (handleStopGeneration st2) s
  = (let! actionResponse :=
       runAction JSON_parse (credentials pending1) aiResponseText in
     ret (Dispatched actionResponse)) s.
Proof.
  intros Hbegin1 Hbegin2.
  split; [exact (stop_then_reply _ _ _ _ _ _ _ _ Hbegin2)|].
  apply begin_inv in Hbegin1 as (_ & _ & Hc1 & Hflags1 & _).
  apply begin_inv in Hbegin2 as (_ & _ & Hc2 & Hflags2 & Href2 & _).
  unfold handleSendMessage_resume, aborted, handleStopGeneration. cbn.
  rewrite Href2, Hflags2, Hflags1, Hc1, Hc2, Hflags1.
  rewrite list_lookup_insert_ne by (rewrite length_app; simpl; lia).
  rewrite lookup_app_l by (rewrite length_app; simpl; lia).
  rewrite lookup_own_controller. reflexivity.
Qed.

(** X24. Once a controller is aborted it stays aborted through every
    handler: no login, stop or further message revives a stopped reply. *)
Theorem aborted_stays_aborted (st : AppState.t) (c : nat) :
  aborted st c = true ->
  (forall creds validation now timestamp,
     aborted (handleLogin creds validation now timestamp st) c = true) /\
  aborted (handleStopGeneration st) c = true /\
  (forall text now timestamp,
     aborted (handleSendMessage_begin trim text now timestamp st).1 c = true).
Proof.
  unfold aborted. intros Hflag.
  destruct (AppState.controllers st !! c) as [flag|] eqn:Hc; [|discriminate].
  subst flag. repeat split.
  - intros. destruct validation as [[wp gm]|]; cbn; by rewrite Hc.
  - cbn. destruct (AppState.abortControllerRef st) as [k|]; [|by rewrite Hc].
    destruct (decide (k = c)) as [->|Hne].
    + rewrite list_lookup_insert_eq; [done | by eapply lookup_lt_Some].
    + rewrite list_lookup_insert_ne by done. by rewrite Hc.
  - intros text now timestamp.
    destruct (handleSendMessage_begin trim text now timestamp st)
      as [st1 [pending|]] eqn:Hbegin; cbn [fst].
    + apply begin_inv in Hbegin as (_ & _ & _ & -> & _).
      by rewrite (lookup_app_l_Some _ _ _ _ Hc).
    + apply begin_none_inv in Hbegin as ->. by rewrite Hc.
Qed.

End HandlerFacts.


(** * The further properties at work on the examples *)

Lemma more_decodes tag payload :
  more_parse (action_text tag (Some payload))
  = Some (action_value tag (Some payload)) ->
  decodes_to more_parse (action_text tag (Some payload)) tag
    (payload_fields payload).
Proof.
  intros Hparse. exists (action_object tag (Some payload)).
  split; [split|]; [exact Hparse | reflexivity | reflexivity].
Qed.

Lemma only_update_action_updates_witness :
  update_calls
    (@runAction Site example_client example_parse example_credentials
       (action_text "GET_CATEGORY_METADATA" (Some ask_shoes)) (shop, [])).2.2
  = 0%nat.
Proof.
  apply (@only_update_action_updates Site example_client example_parse
           example_credentials
           (action_text "GET_CATEGORY_METADATA" (Some ask_shoes)) shop []).
  intros top [Hparse Haction]. vm_compute in Hparse. injection Hparse as <-.
  vm_compute in Haction. discriminate Haction.
Defined.

Lemma get_without_name_asks_witness :
  @runAction Site example_client more_parse example_credentials
    (action_text "GET_CATEGORY_METADATA" (Some ask_nothing)) (shop, []) =
  (Returned (Some "Veuillez spécifier un nom de catégorie."), (shop, [])).
Proof.
  apply (@get_without_name_asks Site example_client more_parse
           example_credentials
           (action_text "GET_CATEGORY_METADATA" (Some ask_nothing))
           (payload_fields ask_nothing) (shop, [])).
  - apply more_decodes. vm_compute. reflexivity.
  - vm_compute. reflexivity.
Defined.

Lemma update_without_name_asks_witness :
  @runAction Site example_client more_parse example_credentials
    (action_text "UPDATE_CATEGORY_METADATA" (Some retitle_nothing)) (shop, []) =
  (Returned (Some "Veuillez spécifier un nom de catégorie à mettre à jour."),
   (shop, [])).
Proof.
  apply (@update_without_name_asks Site example_client more_parse
           example_credentials
           (action_text "UPDATE_CATEGORY_METADATA" (Some retitle_nothing))
           (payload_fields retitle_nothing) (shop, [])).
  - apply more_decodes. vm_compute. reflexivity.
  - vm_compute. reflexivity.
Defined.

Lemma get_without_exact_match_witness :
  @runAction Site example_client more_parse example_credentials
    (action_text "GET_CATEGORY_METADATA" (Some ask_sh)) (shop, []) =
  (Returned
     (Some ("Je n'ai pas trouvé de correspondance exacte pour "
            +:+ dq +:+ "Sh" +:+ dq +:+ "." +:+ nl +:+ nl
            +:+ "Vouliez-vous dire l'une de ces catégories ?" +:+ nl
            +:+ " - " +:+ dq +:+ "Shoes" +:+ dq +:+ nl
            +:+ " - " +:+ dq +:+ "Shirts" +:+ dq)),
   (shop, [CallGetCategoryByName (JStr "Sh")])).
Proof.
  apply (@get_without_exact_match Site example_client more_parse
           example_credentials
           (action_text "GET_CATEGORY_METADATA" (Some ask_sh))
           (payload_fields ask_sh) (JStr "Sh") "Sh"
           {| exactMatch := None; suggestions := [shoes; shirts] |}
           shop shop []).
  - apply more_decodes. vm_compute. reflexivity.
  - vm_compute. reflexivity.
  - reflexivity.
  - reflexivity.
  - vm_compute. reflexivity.
  - reflexivity.
Defined.

Lemma update_without_exact_match_witness :
  exists log' : list call,
    @runAction Site example_client more_parse example_credentials
      (action_text "UPDATE_CATEGORY_METADATA" (Some retitle_sh)) (shop, []) =
    (Returned
       (Some ("Je n'ai pas trouvé de correspondance exacte pour "
              +:+ dq +:+ "Sh" +:+ dq +:+ " à mettre à jour." +:+ nl +:+ nl
              +:+ "Vouliez-vous dire l'une de ces catégories ?" +:+ nl
              +:+ " - " +:+ dq +:+ "Shoes" +:+ dq +:+ nl
              +:+ " - " +:+ dq +:+ "Shirts" +:+ dq)),
     (shop, log')) /\
    log' = [CallGetCategoryByName (JStr "Sh")] /\
    update_calls log' = 0%nat.
Proof.
  apply (@update_without_exact_match Site example_client more_parse
           example_credentials
           (action_text "UPDATE_CATEGORY_METADATA" (Some retitle_sh))
           (payload_fields retitle_sh) (JStr "Sh") "Sh"
           {| exactMatch := None; suggestions := [shoes; shirts] |}
           shop shop []).
  - apply more_decodes. vm_compute. reflexivity.
  - vm_compute. reflexivity.
  - reflexivity.
  - reflexivity.
  - vm_compute. reflexivity.
  - reflexivity.
Defined.

Lemma nothing_to_change_iff_witness :
  let result :=
    @runAction Site example_client example_parse example_credentials
      (action_text "UPDATE_CATEGORY_METADATA" (Some ask_shoes)) (shop, []) in
  let fields := payload_fields ask_shoes in
  let nothing_asked :=
    fields !! "description" = None /\
    when_truthy (fields !! "name") = None /\
    when_truthy (fields !! "slug") = None /\
    when_truthy (fields !! "metaTitle") = None /\
    when_truthy (fields !! "metaDescription") = None /\
    when_truthy (fields !! "focusKeyphrase") = None in
  (result.1 =
   Returned
     (Some "Aucune modification à appliquer. Veuillez spécifier un champ à modifier.")
   <-> nothing_asked) /\
  (update_calls result.2.2 = 0%nat <-> nothing_asked).
Proof.
  apply (@nothing_to_change_iff Site example_client example_parse
           example_credentials
           (action_text "UPDATE_CATEGORY_METADATA" (Some ask_shoes))
           (payload_fields ask_shoes) (JStr "Shoes") shoes shop shop []).
  - apply example_decodes. vm_compute. reflexivity.
  - vm_compute. reflexivity.
  - reflexivity.
  - apply shoes_resolve_exactly; reflexivity.
Defined.

(** With suggestions absent the replies say that nothing was found. *)
Example get_hats_not_found :
  (@runAction Site example_client more_parse example_credentials
     (action_text "UPDATE_CATEGORY_METADATA" (Some retitle_hats)) (shop, [])).1 =
  Returned
    (Some ("Désolé, je n'ai pas trouvé de catégorie nommée " +:+ dq +:+ "Hats"
           +:+ dq +:+ " à mettre à jour.")).
Proof. vm_compute. reflexivity. Qed.

Lemma update_success_names_category_witness :
  let renamed :=
    (@updateCategoryMetadata Site example_client example_credentials 1
       (patch_of (payload_fields rename_shoes)) shop).2 in
  @runAction Site example_client example_parse example_credentials
    (action_text "UPDATE_CATEGORY_METADATA" (Some rename_shoes)) (shop, []) =
  (Returned
     (Some ("La catégorie " +:+ dq +:+ "Boots" +:+ dq
            +:+ " a été mise à jour avec succès.")),
   (renamed,
    [CallGetCategoryByName (JStr "Shoes");
     CallUpdateCategoryMetadata 1 (patch_of (payload_fields rename_shoes))])).
Proof.
  intros renamed.
  apply (@update_success_names_category Site example_client example_parse
           example_credentials
           (action_text "UPDATE_CATEGORY_METADATA" (Some rename_shoes))
           (payload_fields rename_shoes) (JStr "Shoes") shoes
           shop shop renamed [] tt).
  - apply example_decodes. vm_compute. reflexivity.
  - vm_compute. reflexivity.
  - reflexivity.
  - apply shoes_resolve_exactly; reflexivity.
  - vm_compute. discriminate.
  - vm_compute. reflexivity.
  - vm_compute. reflexivity.
Defined.

Lemma resolution_rejection_propagates_witness :
  @runAction Site example_client example_parse example_credentials
    (action_text "GET_CATEGORY_METADATA" (Some ask_shoes)) (offline_shop, []) =
  (Thrown (ServiceError "ConnectionError"),
   (offline_shop, [CallGetCategoryByName (JStr "Shoes")])).
Proof.
  apply (@resolution_rejection_propagates Site example_client example_parse
           example_credentials
           (action_text "GET_CATEGORY_METADATA" (Some ask_shoes))
           "GET_CATEGORY_METADATA" (payload_fields ask_shoes) (JStr "Shoes")
           offline_shop offline_shop [] (ServiceError "ConnectionError")).
  - left. reflexivity.
  - apply example_decodes. vm_compute. reflexivity.
  - vm_compute. reflexivity.
  - reflexivity.
  - reflexivity.
Defined.

Lemma listing_rejection_propagates_witness :
  @runAction Site example_client example_parse example_credentials
    (action_text "LIST_CATEGORIES" None) (offline_shop, []) =
  (Thrown (ServiceError "ConnectionError"), (offline_shop, [CallGetCategories])).
Proof.
  apply (@listing_rejection_propagates Site example_client example_parse
           example_credentials (action_text "LIST_CATEGORIES" None)
           (action_object "LIST_CATEGORIES" None) offline_shop offline_shop []
           (ServiceError "ConnectionError")).
  - split; vm_compute; reflexivity.
  - reflexivity.
Defined.

Lemma missing_payload_raises_witness :
  @runAction Site example_client more_parse example_credentials
    (action_text "GET_CATEGORY_METADATA" None) (shop, []) =
  (Thrown TypeError, (shop, [])).
Proof.
  apply (@missing_payload_raises Site example_client more_parse
           example_credentials (action_text "GET_CATEGORY_METADATA" None)
           "GET_CATEGORY_METADATA" (action_object "GET_CATEGORY_METADATA" None)
           (shop, [])).
  - left. reflexivity.
  - split; vm_compute; reflexivity.
  - left. vm_compute. reflexivity.
Defined.

Lemma list_one_bullet_per_category_witness :
  @runAction Site example_client example_parse example_credentials
    (action_text "LIST_CATEGORIES" None) (shop, []) =
  (Returned
     (Some ("Voici les catégories de produits trouvées : " +:+ nl +:+ nl
            +:+ " - " +:+ "Shoes"
            +:+ (nl +:+ " - " +:+ "Shirts") +:+ (nl +:+ " - " +:+ "Sandals"))),
   (shop, [CallGetCategories])).
Proof.
  apply (@list_one_bullet_per_category Site example_client example_parse
           example_credentials (action_text "LIST_CATEGORIES" None)
           (action_object "LIST_CATEGORIES" None) shoes [shirts; sandals]
           shop shop []).
  - split; vm_compute; reflexivity.
  - reflexivity.
Defined.

Lemma theme_round_trip_witness :
  initialTheme
    {| items := {["theme" := "dark"]}; accepts := fun _ _ => true |}
    (Some false)
  = "dark".
Proof.
  apply (theme_round_trip "dark" ∅ roomy_storage
           {| items := {["theme" := "dark"]}; accepts := fun _ _ => true |}
           (Some false)).
  - vm_compute. reflexivity.
  - discriminate.
Defined.

Lemma history_round_trip_witness :
  initialMessages texts_parse (saveHistory texts_stringify [bonjour] roomy_storage)
  = JArr [JStr "Bonjour"].
Proof.
  apply (history_round_trip texts_parse texts_stringify [bonjour] roomy_storage
           (JArr [JStr "Bonjour"])).
  - vm_compute. discriminate.
  - vm_compute. reflexivity.
Defined.

Lemma logged_in_well_formed : well_formed logged_in_app.
Proof. split; [intros _; discriminate | intros c Href; discriminate Href]. Qed.

Lemma handlers_keep_well_formed_witness :
  (forall creds validation now timestamp,
     well_formed (handleLogin creds validation now timestamp logged_in_app)) /\
  well_formed (handleStopGeneration logged_in_app) /\
  (forall text now timestamp,
     well_formed
       (handleSendMessage_begin example_trim text now timestamp logged_in_app).1).
Proof.
  apply (handlers_keep_well_formed example_trim logged_in_app).
  exact logged_in_well_formed.
Defined.

Lemma login_then_send_witness :
  exists (st1 : AppState.t) (pending : Pending),
    handleSendMessage_begin example_trim "lister les produits" 1001 "10:01"
      (handleLogin example_credentials (Some (true, true)) 1000 "10:00" fresh_app)
    = (st1, Some pending) /\
    credentials pending = example_credentials /\
    AppState.isTyping st1 = true /\
    AppState.messages st1 =
    [ {| Message.id := 1000; Message.text := welcome_text;
         Message.sender := Sender.AI; Message.timestamp := "10:00" |};
      {| Message.id := 1001; Message.text := "lister les produits";
         Message.sender := Sender.User; Message.timestamp := "10:01" |} ].
Proof.
  apply (login_then_send example_trim example_credentials 1000 "10:00"
           "lister les produits" 1001 "10:01" fresh_app).
  vm_compute. discriminate.
Defined.

Lemma stop_then_reply_witness :
  let st1 :=
    (handleSendMessage_begin example_trim "lister les produits" 1001 "10:01"
       logged_in_app).1 in
  @handleSendMessage_resume Site example_client example_parse
    {| controller := 0; credentials := example_credentials |}
    (action_text "UPDATE_CATEGORY_METADATA" (Some retitle_shoes))
    (handleStopGeneration st1) (shop, [])
  = (Returned Stopped, (shop, [])).
Proof.
  intros st1.
  apply (@stop_then_reply Site example_client example_parse example_trim
           "lister les produits" 1001 "10:01" logged_in_app st1
           {| controller := 0; credentials := example_credentials |}
           (action_text "UPDATE_CATEGORY_METADATA" (Some retitle_shoes))
           (shop, [])).
  reflexivity.
Defined.

Lemma stop_reaches_only_last_call_witness :
  let st1 :=
    (handleSendMessage_begin example_trim "lister les produits" 1001 "10:01"
       logged_in_app).1 in
  let st2 :=
    (handleSendMessage_begin example_trim "renommer Shoes" 1002 "10:02" st1).1 in
  @handleSendMessage_resume Site example_client example_parse
    {| controller := 1; credentials := example_credentials |}
    (action_text "UPDATE_CATEGORY_METADATA" (Some rename_shoes))
    (handleStopGeneration st2) (shop, [])
  = (Returned Stopped, (shop, [])) /\
  @handleSendMessage_resume Site example_client example_parse
    {| controller := 0; credentials := example_credentials |}
    (action_text "UPDATE_CATEGORY_METADATA" (Some rename_shoes))
    (handleStopGeneration st2) (shop, [])
  = (let! actionResponse :=
       @runAction Site example_client example_parse example_credentials
         (action_text "UPDATE_CATEGORY_METADATA" (Some rename_shoes)) in
     ret (Dispatched actionResponse)) (shop, []).
Proof.
  intros st1 st2.
  apply (@stop_reaches_only_last_call Site example_client example_parse
           example_trim "lister les produits" 1001 "10:01"
           "renommer Shoes" 1002 "10:02" logged_in_app st1 st2
           {| controller := 0; credentials := example_credentials |}
           {| controller := 1; credentials := example_credentials |}
           (action_text "UPDATE_CATEGORY_METADATA" (Some rename_shoes))
           (shop, [])).
  - reflexivity.
  - reflexivity.
Defined.

Lemma aborted_stays_aborted_witness :
  let stopped :=
    handleStopGeneration
      (handleSendMessage_begin example_trim "lister les produits" 1001 "10:01"
         logged_in_app).1 in
  (forall creds validation now timestamp,
     aborted (handleLogin creds validation now timestamp stopped) 0 = true) /\
  aborted (handleStopGeneration stopped) 0 = true /\
  (forall text now timestamp,
     aborted (handleSendMessage_begin example_trim text now timestamp stopped).1 0
     = true).
Proof.
  intros stopped.
  apply (aborted_stays_aborted example_trim stopped 0).
  reflexivity.
Defined.

(** The reply to a first message is dispatched, and renames Shoes, although
    the user stopped the generation after sending a second message. *)
Example first_reply_survives_stop :
  let st1 :=
    (handleSendMessage_begin example_trim "renommer Shoes" 1001 "10:01"
       logged_in_app).1 in
  let st2 :=
    (handleSendMessage_begin example_trim "lister les produits" 1002 "10:02"
       st1).1 in
  (@handleSendMessage_resume Site example_client example_parse
     {| controller := 0; credentials := example_credentials |}
     (action_text "UPDATE_CATEGORY_METADATA" (Some rename_shoes))
     (handleStopGeneration st2) (shop, [])).1
  = Returned
      (Dispatched
         (Some ("La catégorie " +:+ dq +:+ "Boots" +:+ dq
                +:+ " a été mise à jour avec succès."))).
Proof. vm_compute. reflexivity. Qed.

(** The response for a category without any metadata: every line carries
    its placeholder but the slug. *)
Example metadata_of_shoes :
  (@runAction Site example_client example_parse example_credentials
     (action_text "GET_CATEGORY_METADATA" (Some ask_shoes)) (shop, [])).1 =
  Returned
    (Some ("Voici les métadonnées pour " +:+ dq +:+ "Shoes" +:+ dq +:+ ":"
           +:+ nl +:+ nl
           +:+ "- Description: Non définie" +:+ nl
           +:+ "- Slug: shoes" +:+ nl
           +:+ "- Titre SEO (Yoast): Non défini" +:+ nl
           +:+ "- Méta Description (Yoast): Non définie" +:+ nl
           +:+ "- Expression-clé principale (Yoast): Non définie")).
Proof. vm_compute. reflexivity. Qed.

(** The response for a category whose fields are present and empty: every
    line carries its placeholder. *)
Example metadata_of_sandals :
  (@runAction Site example_client example_parse example_credentials
     (action_text "GET_CATEGORY_METADATA" (Some ask_sandals)) (shop, [])).1 =
  Returned
    (Some ("Voici les métadonnées pour " +:+ dq +:+ "Sandals" +:+ dq +:+ ":"
           +:+ nl +:+ nl
           +:+ "- Description: Non définie" +:+ nl
           +:+ "- Slug: Non défini" +:+ nl
           +:+ "- Titre SEO (Yoast): Non défini" +:+ nl
           +:+ "- Méta Description (Yoast): Non définie" +:+ nl
           +:+ "- Expression-clé principale (Yoast): Non définie")).
Proof. vm_compute. reflexivity. Qed.

(** Accented names are matched up to case by the example normal form. *)
Example resolve_ete :
  resolve fold_case containment 1 5 [shoes; ete] "ÉTÉ" = ExactMatch ete /\
  resolve fold_case containment 1 5 [shoes; ete] "été" = ExactMatch ete.
Proof. split; vm_compute; reflexivity. Qed.

(** Equally similar suggestions come in catalog order. *)
Example resolve_sh :
  resolve fold_case containment 1 5 (catalog shop) "Sh"
  = Suggestions [shoes; shirts].
Proof. vm_compute. reflexivity. Qed.
